(** * py3status cmus module: a shallow embedding of
      [py3status/modules/cmus.py] and its specification.

    Python strings are modelled by [string]; a character is a code point
    below 256.  Python dictionaries keep insertion order, so a dictionary
    is an association list with distinct keys.  The host object
    [self.py3] is an oracle record; every call into it is logged in a
    trace, and an exception ends the computation. *)

From Stdlib Require Import ZArith Lia Ascii String.
From stdpp Require Import base decidable option list sets strings pretty.

Local Open Scope Z_scope.

#[local] Set Warnings "-clear-no-such-hyp".

(** * The embedding *)

(** ** Python string primitives used by the module *)

Module PyString.

(** Code points at which [str.splitlines] ends a line. *)
Definition is_linebreak (c : ascii) : bool :=
  match N_of_ascii c with
  | 10 | 11 | 12 | 13 | 28 | 29 | 30 | 133 => true
  | _ => false
  end%N.

(** [str.splitlines()]: a carriage return followed by a line feed is one
    boundary, and a boundary at the very end opens no further line. *)
Fixpoint splitlines (s : string) : list string :=
  match s with
  | EmptyString => []
  | String c rest =>
      if is_linebreak c then
        match c, rest with
        | "013"%char, String "010"%char rest' => "" :: splitlines rest'
        | _, _ => "" :: splitlines rest
        end
      else
        match splitlines rest with
        | [] => [String c ""]
        | l :: ls => String c l :: ls
        end
  end.

(** [s.partition(sep)] for a one-character separator. *)
Fixpoint partition (sep : ascii) (s : string) : string * string * string :=
  match s with
  | EmptyString => ("", "", "")
  | String c rest =>
      if Ascii.eqb c sep then ("", String sep "", rest)
      else let '(a, m, b) := partition sep rest in (String c a, m, b)
  end.

(** [s.lstrip(c)] for a one-character set. *)
Fixpoint lstrip (c : ascii) (s : string) : string :=
  match s with
  | EmptyString => ""
  | String a rest => if Ascii.eqb a c then lstrip c rest else s
  end.

Fixpoint startswith (p s : string) : bool :=
  match p, s with
  | EmptyString, _ => true
  | String a p', String b s' => Ascii.eqb a b && startswith p' s'
  | String _ _, EmptyString => false
  end.

(** [p in s] for strings. *)
Fixpoint contains (p s : string) : bool :=
  startswith p s ||
  match s with
  | EmptyString => false
  | String _ rest => contains p rest
  end.

(** ['%d' % x] *)
Definition fmt_d (x : Z) : string := pretty x.

(** ['%02d' % x]: the sign counts for the width. *)
Definition fmt_02d (x : Z) : string :=
  let s := pretty x in
  if (String.length s <? 2)%nat then "0" +:+ s else s.

(** Whitespace that [int] skips around a literal: the six characters of
    C's [isspace] and, since [int] turns them into spaces first, the two
    spaces above 127. *)
Definition is_space (c : ascii) : bool :=
  match N_of_ascii c with
  | 9 | 10 | 11 | 12 | 13 | 32 | 133 | 160 => true
  | _ => false
  end%N.

Fixpoint lstrip_space (s : string) : string :=
  match s with
  | EmptyString => ""
  | String a rest => if is_space a then lstrip_space rest else s
  end.

Fixpoint rstrip_space (s : string) : string :=
  match s with
  | EmptyString => ""
  | String a rest =>
      match rstrip_space rest with
      | EmptyString => if is_space a then "" else String a ""
      | r => String a r
      end
  end.

Definition digit_of (c : ascii) : option Z :=
  let n := Z.of_N (N_of_ascii c) in
  if (48 <=? n) && (n <=? 57) then Some (n - 48) else None.

(** Digits, with single underscores allowed between two digits. *)
Fixpoint int_digits (acc : Z) (s : string) : option Z :=
  match s with
  | EmptyString => None
  | String c rest =>
      match digit_of c with
      | None => None
      | Some d =>
          let acc' := 10 * acc + d in
          match rest with
          | EmptyString => Some acc'
          | String "_"%char rest' => int_digits acc' rest'
          | _ => int_digits acc' rest
          end
      end
  end.

(** The number of digits of a literal, its underscores apart. *)
Fixpoint count_digits (s : string) : Z :=
  match s with
  | EmptyString => 0
  | String c rest =>
      (match digit_of c with Some _ => 1 | None => 0 end) + count_digits rest
  end.

(** The most digits [int] converts, by default. *)
Definition max_str_digits : Z := 4300.

(** An unsigned literal: well formed, and within the limit of digits. *)
Definition int_literal (ds : string) : option Z :=
  match int_digits 0 ds with
  | Some n => if max_str_digits <? count_digits ds then None else Some n
  | None => None
  end.

(** [int(s)] for a string in base ten; [None] stands for [ValueError]. *)
Definition int_of_str (s : string) : option Z :=
  match rstrip_space (lstrip_space s) with
  | String "-"%char ds => Z.opp <$> int_literal ds
  | String "+"%char ds => int_literal ds
  | ds => int_literal ds
  end.

End PyString.

Import PyString.

(** ** Python values and dictionaries *)

Inductive pyval :=
| PyNone
| PyBool (b : bool)
| PyInt (n : Z)
| PyStr (s : string).

(** Python [==] on these values; [True == 1] and [False == 0] hold. *)
Definition pyval_eqb (a b : pyval) : bool :=
  match a, b with
  | PyNone, PyNone => true
  | PyBool x, PyBool y => Bool.eqb x y
  | PyInt x, PyInt y => x =? y
  | PyBool x, PyInt y | PyInt y, PyBool x => (if x then 1 else 0) =? y
  | PyStr x, PyStr y => String.eqb x y
  | _, _ => false
  end.

Definition truthy (a : pyval) : bool :=
  match a with
  | PyNone => false
  | PyBool b => b
  | PyInt n => negb (n =? 0)
  | PyStr s => negb (String.eqb s "")
  end.

(** [a or b] *)
Definition py_or (a b : pyval) : pyval := if truthy a then a else b.

(** [divmod(a, b)] for a positive [b]: floor division. *)
Definition divmod (a b : Z) : Z * Z := (a / b, a mod b).

(** A dictionary in insertion order. *)
Definition dict (V : Type) := list (string * V).

Fixpoint dict_get {V} (k : string) (d : dict V) : option V :=
  match d with
  | [] => None
  | (k', v) :: d' => if String.eqb k k' then Some v else dict_get k d'
  end.

(** [d[k] = v]: an existing key keeps its place, a new one goes last. *)
Fixpoint dict_set {V} (k : string) (v : V) (d : dict V) : dict V :=
  match d with
  | [] => [(k, v)]
  | (k', v') :: d' =>
      if String.eqb k k' then (k, v) :: d' else (k', v') :: dict_set k v d'
  end.

(** [k in d] *)
Definition dict_mem {V} (k : string) (d : dict V) : bool :=
  match dict_get k d with Some _ => true | None => false end.

Definition dict_keys {V} (d : dict V) : list string := map fst d.

(** [d.get(k)]: [None] for a missing key. *)
Definition dict_get_default (k : string) (d : dict pyval) : pyval :=
  match dict_get k d with Some v => v | None => PyNone end.

(** ** Exceptions, host calls and the trace of an invocation *)

Inductive exn :=
| Exception (msg : string)
| ValueError
| TypeError
| DuplicateKeyword (kw : string)   (* TypeError: multiple values for keyword *)
| KeyError (key : string)
| AttributeError
| CommandError.

Inductive result (A : Type) :=
| Ok (a : A)
| Raise (e : exn).
Arguments Ok {A} a.
Arguments Raise {A} e.

Inductive event :=
| CheckCommands (cmd : string)
| CommandOutput (argv : list string)
| CommandRun (cmd : string)
| PreventRefresh
| TimeIn (seconds : Z)
| SafeFormat (template : string) (params : dict pyval).

(** A computation: its outcome and the host calls made, oldest first. *)
Definition M (A : Type) : Type := result A * list event.

Definition ret {A} (a : A) : M A := (Ok a, []).
Definition raise {A} (e : exn) : M A := (Raise e, []).
Definition bind {A B} (m : M A) (f : A -> M B) : M B :=
  match m with
  | (Ok a, t) => let '(r, t') := f a in (r, t ++ t')
  | (Raise e, t) => (Raise e, t)
  end.
(** [try: m  except: h] with a bare [except]. *)
Definition try_except {A} (m : M A) (h : M A) : M A :=
  match m with
  | (Ok a, t) => (Ok a, t)
  | (Raise _, t) => let '(r, t') := h in (r, t ++ t')
  end.

Notation "x <- m ;; k" := (bind m (fun x => k))
  (at level 20, m at level 99, k at level 200, only parsing).
Notation "' p <- m ;; k" := (bind m (fun x => match x with p => k end))
  (at level 20, p pattern, m at level 99, k at level 200, only parsing).

Fixpoint foldM {A B} (f : A -> B -> M A) (a : A) (l : list B) : M A :=
  match l with
  | [] => ret a
  | b :: l' => a' <- f a b ;; foldM f a' l'
  end.

Definition outcome {A} (m : M A) : result A := fst m.
Definition trace {A} (m : M A) : list event := snd m.

(** [int(value)] *)
Definition py_int (value : pyval) : M Z :=
  match value with
  | PyInt n => ret n
  | PyBool b => ret (if b then 1 else 0)
  | PyStr s => match int_of_str s with Some n => ret n | None => raise ValueError end
  | PyNone => raise TypeError
  end.

(** [dict(k1=v1, ..., **data)] *)
Fixpoint dict_kwargs (kw : dict pyval) (data : dict pyval) : M (dict pyval) :=
  match data with
  | [] => ret kw
  | (k, v) :: data' =>
      if dict_mem k kw then raise (DuplicateKeyword k)
      else dict_kwargs (kw ++ [(k, v)]) data'
  end.

(** ** The host object [self.py3]

    What the host answers is an oracle; the wrappers below log each call. *)

Record Py3 := {
  COLOR_BAD : pyval;
  COLOR_DEGRADED : pyval;
  COLOR_GOOD : pyval;
  COLOR_PAUSED : pyval;
  COLOR_PLAYING : pyval;
  COLOR_STOPPED : pyval;
  (** whether [check_commands] finds the command on the search path *)
  found_on_path : string -> bool;
  (** standard output of a command, or the exception it ends with *)
  output_of : list string -> result string;
  (** exit code of a command, or the exception it ends with *)
  exit_code_of : string -> result Z;
  (** the time a number of seconds from now *)
  clock_in : Z -> Z;
  (** the host's template renderer *)
  render : string -> dict pyval -> string;
}.

(** ** The module's configuration parameters and instance *)

Record Config := {
  button_next : pyval;
  button_pause : pyval;
  button_previous : pyval;
  button_repeat : pyval;
  button_seek_backward : pyval;
  button_seek_forward : pyval;
  button_shuffle : pyval;
  button_stop : pyval;
  button_volume_down : pyval;
  button_volume_up : pyval;
  cache_timeout : Z;
  format : string;
  sleep_timeout : Z;
}.

(** The class attributes. *)
Definition defaults : Config := {|
  button_next := PyNone;
  button_pause := PyInt 1;
  button_previous := PyNone;
  button_repeat := PyNone;
  button_seek_backward := PyNone;
  button_seek_forward := PyNone;
  button_shuffle := PyNone;
  button_stop := PyInt 3;
  button_volume_down := PyNone;
  button_volume_up := PyNone;
  cache_timeout := 5;
  format := "[\?if=is_started [\?if=is_playing > ][\?if=is_paused \|\| ]" +:+
            "[\?if=is_stopped .. ][[{artist}][\?soft  - ][{title}]" +:+
            "|\?show cmus: waiting for user input]]";
  sleep_timeout := 20;
|}.

(** [self] once [post_config_hook] has run. *)
Record Py3status := {
  config :> Config;
  color_stopped : pyval;
  color_paused : pyval;
  color_playing : pyval;
  use_follow : bool;
}.

Record response := {
  cached_until : Z;
  color : pyval;
  full_text : string;
}.

Definition STRING_NOT_INSTALLED : string := "isn't installed".

Section Module.

Context (py3 : Py3).

Definition check_commands (cmd : string) : M bool :=
  (Ok (found_on_path py3 cmd), [CheckCommands cmd]).
Definition command_output (argv : list string) : M string :=
  (output_of py3 argv, [CommandOutput argv]).
Definition command_run (cmd : string) : M Z :=
  (exit_code_of py3 cmd, [CommandRun cmd]).
Definition prevent_refresh : M unit := (Ok tt, [PreventRefresh]).
Definition time_in (seconds : Z) : M Z :=
  (Ok (clock_in py3 seconds), [TimeIn seconds]).
Definition safe_format (template : string) (params : dict pyval) : M string :=
  (Ok (render py3 template params), [SafeFormat template params]).

Definition format_contains : list string :=
  ["if=follow"; "if=!follow"; "{follow}"].

Definition post_config_hook (self : Config) : M Py3status :=
  found <- check_commands "cmus-remote" ;;
  if negb found then raise (Exception STRING_NOT_INSTALLED)
  else
    let color_stopped := py_or (COLOR_STOPPED py3) (COLOR_BAD py3) in
    let color_paused := py_or (COLOR_PAUSED py3) (COLOR_DEGRADED py3) in
    let color_playing := py_or (COLOR_PLAYING py3) (COLOR_GOOD py3) in
    let use_follow :=
      fold_left (fun flag i => if contains i (format self) then true else flag)
                format_contains false in
    ret {| config := self;
           color_stopped := color_stopped;
           color_paused := color_paused;
           color_playing := color_playing;
           use_follow := use_follow |}.

Definition _seconds_to_time (value : pyval) : M string :=
  n <- py_int value ;;
  let '(m, s) := divmod n 60 in
  let '(h, m) := divmod m 60 in
  let time := fmt_d h +:+ ":" +:+ fmt_02d m +:+ ":" +:+ fmt_02d s in
  ret (lstrip ":" (lstrip "0" time)).

(** What the query returned: its text, or the empty dictionary. *)
Inductive cmus_data :=
| Text (s : string)
| Mapping (d : dict pyval).

Definition _get_cmus_data : M (bool * cmus_data) :=
  try_except
    (data <- command_output ["cmus-remote"; "--query"] ;;
     ret (true, Text data))
    (ret (false, Mapping [])).

(** The body of the loop of [_organize_data]. *)
Definition organize_line (temporary : dict string) (line : string)
  : dict string :=
  let '(category, _, value) := partition " " line in
  if String.eqb category "set" || String.eqb category "tag" then
    let '(key, _, value) := partition " " value in
    dict_set key value temporary
  else
    dict_set category value temporary.

Definition _organize_data (data : string) : dict string :=
  fold_left organize_line (splitlines data) [].

(** The body of the first loop of [_manipulate_data]. *)
Definition manipulate_entry (temporary : dict pyval) (item : string * string)
  : M (dict pyval) :=
  let '(key, value) := item in
  if String.eqb key "duration" || String.eqb key "position" then
    let new_key := key +:+ "time" in
    t <- _seconds_to_time (PyStr value) ;;
    let temporary := dict_set new_key (PyStr t) temporary in
    ret (dict_set key (PyStr value) temporary)
  else if String.eqb value "true" || String.eqb value "enabled" then
    ret (dict_set key (PyBool true) temporary)
  else if String.eqb value "false" || String.eqb value "disabled" then
    ret (dict_set key (PyBool false) temporary)
  else
    ret (dict_set key (PyStr value) temporary).

Definition _manipulate_data (self : Py3status) (data : dict string)
  : M (dict pyval) :=
  temporary <- foldM manipulate_entry [] data ;;
  let temporary :=
    if dict_mem "stream" data then dict_set "stream" (PyBool true) temporary
    else temporary in
  if use_follow self then
    let cmd := ["cmus-remote"; "--raw"; "set follow"] in
    out <- command_output cmd ;;
    if contains "true" out then ret (dict_set "follow" (PyBool true) temporary)
    else ret (dict_set "follow" (PyBool false) temporary)
  else
    ret temporary.

(** The local variables of [cmus] when it reaches its [return]: the four
    control placeholders, the timeout, the colour and the data. *)
Record locals := {
  is_paused : pyval;
  is_playing : pyval;
  is_started : bool;
  is_stopped : pyval;
  l_cached_until : Z;
  l_color : pyval;
  l_data : cmus_data;
}.

(** [cmus] down to its [return]. *)
Definition cmus_locals (self : Py3status) : M locals :=
  let is_paused := PyNone in
  let is_playing := PyNone in
  let is_stopped := PyNone in
  let cached_until := sleep_timeout self in
  let color := COLOR_BAD py3 in
  '(is_started, data) <- _get_cmus_data ;;
  if is_started then
    let cached_until := cache_timeout self in
    data <- match data with
            | Text s => ret (_organize_data s)
            | Mapping _ => raise AttributeError
            end ;;
    data <- _manipulate_data self data ;;
    let status := dict_get_default "status" data in
    if pyval_eqb status (PyStr "playing") then
      ret {| is_paused := is_paused; is_playing := PyBool true;
             is_started := is_started; is_stopped := is_stopped;
             l_cached_until := cached_until;
             l_color := color_playing self; l_data := Mapping data |}
    else if pyval_eqb status (PyStr "paused") then
      ret {| is_paused := PyBool true; is_playing := is_playing;
             is_started := is_started; is_stopped := is_stopped;
             l_cached_until := cached_until;
             l_color := color_paused self; l_data := Mapping data |}
    else if pyval_eqb status (PyStr "stopped") then
      ret {| is_paused := is_paused; is_playing := is_playing;
             is_started := is_started; is_stopped := PyBool true;
             l_cached_until := cached_until;
             l_color := color_stopped self; l_data := Mapping data |}
    else
      ret {| is_paused := is_paused; is_playing := is_playing;
             is_started := is_started; is_stopped := is_stopped;
             l_cached_until := cached_until;
             l_color := color; l_data := Mapping data |}
  else
    ret {| is_paused := is_paused; is_playing := is_playing;
           is_started := is_started; is_stopped := is_stopped;
           l_cached_until := cached_until;
           l_color := color; l_data := data |}.

(** [cmus]: the statements above, then the [return], whose items are
    evaluated in the order written. *)
Definition cmus (self : Py3status) : M response :=
  l <- cmus_locals self ;;
  until <- time_in (l_cached_until l) ;;
  data <- match l_data l with
          | Mapping d => ret d
          | Text _ => raise TypeError
          end ;;
  params <- dict_kwargs [("is_paused", is_paused l);
                         ("is_playing", is_playing l);
                         ("is_started", PyBool (is_started l));
                         ("is_stopped", is_stopped l)] data ;;
  text <- safe_format (format self) params ;;
  ret {| cached_until := until; color := l_color l; full_text := text |}.

Definition on_click (self : Py3status) (event : dict pyval) : M unit :=
  button <- match dict_get "button" event with
            | Some b => ret b
            | None => raise (KeyError "button")
            end ;;
  let run cmd := (_ <- command_run cmd ;; ret tt) in
  if pyval_eqb button (button_pause self) then run "cmus-remote --pause"
  else if pyval_eqb button (button_stop self) then run "cmus-remote --stop"
  else if pyval_eqb button (button_next self) then run "cmus-remote --next"
  else if pyval_eqb button (button_previous self) then run "cmus-remote --prev"
  else if pyval_eqb button (button_repeat self) then run "cmus-remote --repeat"
  else if pyval_eqb button (button_shuffle self) then run "cmus-remote --shuffle"
  else if pyval_eqb button (button_seek_backward self) then
    run "cmus-remote --seek -5"
  else if pyval_eqb button (button_seek_forward self) then
    run "cmus-remote --seek +5"
  else if pyval_eqb button (button_volume_down self) then
    run "cmus-remote --vol -5%"
  else if pyval_eqb button (button_volume_up self) then
    run "cmus-remote --vol +5%"
  else prevent_refresh.

End Module.

(** * The vocabulary of the specification *)

(** ** Time formatting *)

(** Two decimal digits, the way the specification words zero padding. *)
Definition digit_char (d : Z) : ascii :=
  ascii_of_N (Z.to_N (48 + d)).
Definition two_digits (x : Z) : string :=
  String (digit_char (x / 10)) (String (digit_char (x mod 10)) "").

(** ** Parsing *)

Fixpoint has_char (c : ascii) (s : string) : bool :=
  match s with
  | EmptyString => false
  | String a rest => Ascii.eqb a c || has_char c rest
  end.

(** [s] split on its first space: [a] is what precedes it and [b] what
    follows; without a space, [a] is all of [s] and [b] is empty. *)
Definition first_space (s a b : string) : Prop :=
  (has_char " " a = false /\ s = a +:+ " " +:+ b)
  \/ (has_char " " s = false /\ a = s /\ b = "").

(** The entry a line stands for, in the words of the specification. *)
Definition stores (line key value : string) : Prop :=
  exists category remainder,
    first_space line category remainder
    /\ if decide (category = "set" \/ category = "tag")
       then first_space remainder key value
       else key = category /\ value = remainder.

(** The key and the value that one round of the loop of
    [_organize_data] stores. *)
Definition line_entry (line : string) : string * string :=
  let '(category, _, value) := partition " " line in
  if String.eqb category "set" || String.eqb category "tag" then
    let '(key, _, value) := partition " " value in (key, value)
  else (category, value).

(** Storing a list of entries one after the other. *)
Definition store_all {V} (entries : list (string * V)) (d : dict V) : dict V :=
  fold_left (fun t e => dict_set e.1 e.2 t) entries d.

(** ** Click dispatch *)

(** The bindings in the order of the specification, each with the
    command the specification gives for it. *)
Definition bindings (self : Py3status) : list (pyval * string) :=
  [ (button_pause self, "cmus-remote --pause");
    (button_stop self, "cmus-remote --stop");
    (button_next self, "cmus-remote --next");
    (button_previous self, "cmus-remote --prev");
    (button_repeat self, "cmus-remote --repeat");
    (button_shuffle self, "cmus-remote --shuffle");
    (button_seek_backward self, "cmus-remote --seek -5");
    (button_seek_forward self, "cmus-remote --seek +5");
    (button_volume_down self, "cmus-remote --vol -5%");
    (button_volume_up self, "cmus-remote --vol +5%") ].

Fixpoint first_match (button : pyval) (table : list (pyval * string))
  : option string :=
  match table with
  | [] => None
  | (b, cmd) :: rest =>
      if pyval_eqb button b then Some cmd else first_match button rest
  end.

(** ** The poll entry point *)

Definition query : list string := ["cmus-remote"; "--query"].
Definition raw_follow : list string := ["cmus-remote"; "--raw"; "set follow"].

(** The four control placeholders as [cmus] binds them. *)
Definition control_placeholders (paused playing : pyval) (started : bool)
           (stopped : pyval) : dict pyval :=
  [("is_paused", paused); ("is_playing", playing);
   ("is_started", PyBool started); ("is_stopped", stopped)].

Definition control_keys : list string :=
  ["is_paused"; "is_playing"; "is_started"; "is_stopped"].

(** The local variables of [cmus] when the query failed, and when it
    succeeded and the snapshot [d] was built. *)
Definition idle_locals (py3 : Py3) (self : Py3status) : locals :=
  {| is_paused := PyNone; is_playing := PyNone; is_started := false;
     is_stopped := PyNone; l_cached_until := sleep_timeout self;
     l_color := COLOR_BAD py3; l_data := Mapping [] |}.

Definition started_locals (py3 : Py3) (self : Py3status) (d : dict pyval)
  : locals :=
  let status := dict_get_default "status" d in
  if pyval_eqb status (PyStr "playing") then
    {| is_paused := PyNone; is_playing := PyBool true; is_started := true;
       is_stopped := PyNone; l_cached_until := cache_timeout self;
       l_color := color_playing self; l_data := Mapping d |}
  else if pyval_eqb status (PyStr "paused") then
    {| is_paused := PyBool true; is_playing := PyNone; is_started := true;
       is_stopped := PyNone; l_cached_until := cache_timeout self;
       l_color := color_paused self; l_data := Mapping d |}
  else if pyval_eqb status (PyStr "stopped") then
    {| is_paused := PyNone; is_playing := PyNone; is_started := true;
       is_stopped := PyBool true; l_cached_until := cache_timeout self;
       l_color := color_stopped self; l_data := Mapping d |}
  else
    {| is_paused := PyNone; is_playing := PyNone; is_started := true;
       is_stopped := PyNone; l_cached_until := cache_timeout self;
       l_color := COLOR_BAD py3; l_data := Mapping d |}.

(** How many of the given flags are set. *)
Definition count_set (flags : list pyval) : nat :=
  length (List.filter truthy flags).

(** The reading of the four flags as exactly one of Not-Started,
    Started-Playing, Started-Paused and Started-Stopped. *)
Definition one_of_four_states (paused playing : pyval) (started : bool)
           (stopped : pyval) : Prop :=
  (started = false /\ playing = PyNone /\ paused = PyNone /\ stopped = PyNone)
  \/ (started = true /\ count_set [playing; paused; stopped] = 1%nat).

(** The invariant of the data model: not started and nothing set, or
    started and at most one of the three set. *)
Definition valid_flags (paused playing : pyval) (started : bool)
           (stopped : pyval) : Prop :=
  (started = false /\ playing = PyNone /\ paused = PyNone /\ stopped = PyNone)
  \/ (started = true /\ (count_set [playing; paused; stopped] <= 1)%nat).

(** ** The transformer *)

(** Token normalisation in the words of the specification. *)
Definition normalise (value : string) : pyval :=
  if decide (value = "true" \/ value = "enabled") then PyBool true
  else if decide (value = "false" \/ value = "disabled") then PyBool false
  else PyStr value.

Definition is_time_key (key : string) : Prop :=
  key = "duration" \/ key = "position".

(** A key is left alone by an entry that is neither for it nor, as a
    time key, for the key it is derived from. *)
Definition derives (item_key k : string) : Prop :=
  is_time_key item_key /\ k = item_key +:+ "time".

(** The loop returns when every time key holds an integer literal. *)
Definition times_parse (data : dict string) : Prop :=
  forall key value, (key, value) ∈ data -> is_time_key key ->
                    is_Some (int_of_str value).

(** ** Sample hosts and configurations, for evaluating the module *)

Definition nl : string := String "010" "".

Definition sample_host (query raw : result string) : Py3 := {|
  COLOR_BAD := PyStr "#FF0000";
  COLOR_DEGRADED := PyStr "#FFFF00";
  COLOR_GOOD := PyStr "#00FF00";
  COLOR_PAUSED := PyNone;
  COLOR_PLAYING := PyStr "#0000FF";
  COLOR_STOPPED := PyNone;
  found_on_path := fun cmd => String.eqb cmd "cmus-remote";
  output_of := fun argv =>
    match argv with
    | [_; "--query"] => query
    | _ => raw
    end;
  exit_code_of := fun _ => Ok 0;
  clock_in := fun seconds => 1000 + seconds;
  render := fun template _ => template;
|}.

(** [self] as the startup hook leaves it for the default configuration
    under the sample host. *)
Definition default_self : Py3status := {|
  config := defaults;
  color_stopped := PyStr "#FF0000";
  color_paused := PyStr "#FFFF00";
  color_playing := PyStr "#0000FF";
  use_follow := false;
|}.

Definition no_cmus_host : Py3 := {|
  COLOR_BAD := PyStr "#FF0000";
  COLOR_DEGRADED := PyStr "#FFFF00";
  COLOR_GOOD := PyStr "#00FF00";
  COLOR_PAUSED := PyNone;
  COLOR_PLAYING := PyNone;
  COLOR_STOPPED := PyNone;
  found_on_path := fun _ => false;
  output_of := fun _ => Raise CommandError;
  exit_code_of := fun _ => Raise CommandError;
  clock_in := fun seconds => seconds;
  render := fun template _ => template;
|}.

Definition buffering_host : Py3 :=
  sample_host (Ok "status buffering") (Raise CommandError).

(** A configuration whose template asks for the follow placeholder. *)
Definition follow_config : Config := {|
  button_next := PyNone;
  button_pause := PyInt 1;
  button_previous := PyNone;
  button_repeat := PyNone;
  button_seek_backward := PyNone;
  button_seek_forward := PyNone;
  button_shuffle := PyNone;
  button_stop := PyInt 3;
  button_volume_down := PyNone;
  button_volume_up := PyNone;
  cache_timeout := 5;
  format := "[\?if=follow F] {title}";
  sleep_timeout := 20;
|}.

(** [self] as the startup hook leaves it for [follow_config] under the
    sample host. *)
Definition follow_self : Py3status := {|
  config := follow_config;
  color_stopped := PyStr "#FF0000";
  color_paused := PyStr "#FFFF00";
  color_playing := PyStr "#0000FF";
  use_follow := true;
|}.

(** ** The shapes of the query output *)

(** No character of [s] ends a line. *)
Fixpoint no_linebreak (s : string) : bool :=
  match s with
  | EmptyString => true
  | String c rest => negb (is_linebreak c) && no_linebreak rest
  end.

(** The three shapes of a line: [<category> <value>], [set <key> <value>]
    and [tag <key> <value>]. *)
Inductive line_kind := Bare | SetLine | TagLine.

Definition encode_line (e : line_kind * string * string) : string :=
  let '(kind, key, value) := e in
  match kind with
  | Bare => key +:+ " " +:+ value
  | SetLine => "set " +:+ key +:+ " " +:+ value
  | TagLine => "tag " +:+ key +:+ " " +:+ value
  end.

(** A report: its lines, each ended by a line feed. *)
Definition encode (es : list (line_kind * string * string)) : string :=
  foldr (fun e s => encode_line e +:+ nl +:+ s) "" es.

(** A key is one token, nothing spans lines, and a category is neither
    [set] nor [tag]. *)
Definition well_formed (e : line_kind * string * string) : Prop :=
  let '(kind, key, value) := e in
  has_char " " key = false /\ no_linebreak key = true
  /\ no_linebreak value = true
  /\ (kind = Bare -> key <> "set" /\ key <> "tag").

(** * Properties *)

(** ** Time formatting *)

Lemma pretty_N_go_head (x : N) (s : string) :
  (0 < x)%N ->
  exists c r, pretty_N_go x s = String c r /\ c <> "0"%char /\ c <> ":"%char.
Proof.
  revert s. induction (N.lt_wf_0 x) as [x _ IH]; intros s Hx.
  rewrite pretty_N_go_step by done.
  destruct (decide (x `div` 10 = 0)%N) as [Hz|Hnz].
  - rewrite Hz, pretty_N_go_0. eexists _, _. split; [done|].
    assert (x < 10)%N by (apply N.div_small_iff in Hz; [done | lia]).
    assert (x `mod` 10 = x)%N as -> by (apply N.mod_small; lia).
    assert (x = 1 \/ x = 2 \/ x = 3 \/ x = 4 \/ x = 5 \/ x = 6
            \/ x = 7 \/ x = 8 \/ x = 9)%N as Hc by lia.
    destruct Hc as [->|[->|[->|[->|[->|[->|[->|[->| ->]]]]]]]]; done.
  - apply IH; [apply N.div_lt; lia | by apply N.neq_0_lt_0].
Qed.

Lemma pretty_Z_head (h : Z) :
  0 < h -> exists c r, pretty h = String c r /\ c <> "0"%char /\ c <> ":"%char.
Proof.
  intros Hh. destruct h as [|p|p]; try lia.
  unfold pretty, pretty_Z, pretty, pretty_N.
  destruct (decide (N.pos p = 0%N)); [lia|].
  apply pretty_N_go_head. lia.
Qed.

Lemma fmt_02d_two_digits (x : Z) :
  0 <= x < 60 -> fmt_02d x = two_digits x.
Proof.
  intros Hx.
  assert (exists n : nat, (n < 60)%nat /\ x = Z.of_nat n) as (n & Hn & ->).
  { exists (Z.to_nat x). lia. }
  clear Hx. do 60 (destruct n as [|n]; [vm_compute; reflexivity|]). lia.
Qed.






(** ** Dictionaries *)

Section DictFacts.

Context {V : Type}.
Implicit Types (d : dict V) (k : string) (v : V).

Lemma dict_get_set_eq k v d : dict_get k (dict_set k v d) = Some v.
Proof.
  induction d as [|[k' v'] d IH]; simpl.
  - by rewrite String.eqb_refl.
  - destruct (String.eqb k k') eqn:E; simpl; by rewrite ?String.eqb_refl, ?E.
Qed.

Lemma dict_get_set_ne k k' v d :
  k <> k' -> dict_get k' (dict_set k v d) = dict_get k' d.
Proof.
  intros Hne. induction d as [|[k0 v0] d IH]; simpl.
  - apply String.eqb_neq in Hne. by rewrite String.eqb_sym, Hne.
  - destruct (String.eqb k k0) eqn:E; simpl.
    + apply String.eqb_eq in E as <-.
      apply String.eqb_neq in Hne. by rewrite String.eqb_sym, Hne.
    + by rewrite IH.
Qed.

Lemma dict_keys_set k v d k' :
  k' ∈ dict_keys (dict_set k v d) <-> k' = k \/ k' ∈ dict_keys d.
Proof.
  unfold dict_keys. induction d as [|[k0 v0] d IH]; simpl.
  - rewrite list_elem_of_singleton. set_solver.
  - destruct (String.eqb k k0) eqn:E; simpl.
    + apply String.eqb_eq in E as <-. set_solver.
    + rewrite !elem_of_cons, IH. tauto.
Qed.

Lemma dict_keys_set_NoDup k v d :
  NoDup (dict_keys d) -> NoDup (dict_keys (dict_set k v d)).
Proof.
  unfold dict_keys. induction d as [|[k0 v0] d IH]; simpl; intros Hd.
  - apply NoDup_singleton.
  - apply NoDup_cons in Hd as [Hk0 Hd].
    destruct (String.eqb k k0) eqn:E; simpl.
    + apply String.eqb_eq in E as <-. by apply NoDup_cons.
    + apply NoDup_cons. split; [|by apply IH].
      intros Hin. apply (dict_keys_set k v d k0) in Hin as [->|Hin].
      * by rewrite String.eqb_refl in E.
      * done.
Qed.

Lemma dict_get_Some_key k v d : dict_get k d = Some v -> k ∈ dict_keys d.
Proof.
  unfold dict_keys. induction d as [|[k0 v0] d IH]; simpl; [done|].
  destruct (String.eqb k k0) eqn:E.
  - apply String.eqb_eq in E as <-. set_solver.
  - set_solver.
Qed.

Lemma dict_get_None_key k d : dict_get k d = None <-> k ∉ dict_keys d.
Proof.
  unfold dict_keys. induction d as [|[k0 v0] d IH]; simpl.
  - set_solver.
  - destruct (String.eqb k k0) eqn:E.
    + apply String.eqb_eq in E as <-. set_solver.
    + apply String.eqb_neq in E. rewrite IH. set_solver.
Qed.

Lemma dict_mem_key k d : dict_mem k d = true <-> k ∈ dict_keys d.
Proof.
  unfold dict_mem. destruct (dict_get k d) eqn:E.
  - split; [intros _; by eapply dict_get_Some_key | done].
  - split; [done|]. by apply dict_get_None_key in E.
Qed.

Lemma store_all_NoDup entries d :
  NoDup (dict_keys d) -> NoDup (dict_keys (store_all entries d)).
Proof.
  revert d. induction entries as [|e es IH]; intros d Hd; simpl; [done|].
  apply IH. by apply dict_keys_set_NoDup.
Qed.

Lemma store_all_keys entries d k :
  k ∈ dict_keys (store_all entries d) <-> k ∈ entries.*1 \/ k ∈ dict_keys d.
Proof.
  revert d. induction entries as [|e es IH]; intros d; simpl.
  - set_solver.
  - rewrite IH, dict_keys_set. set_solver.
Qed.

Lemma store_all_untouched entries d k :
  k ∉ entries.*1 -> dict_get k (store_all entries d) = dict_get k d.
Proof.
  revert d. induction entries as [|e es IH]; intros d Hk; simpl; [done|].
  rewrite IH by set_solver. apply dict_get_set_ne. set_solver.
Qed.

Lemma store_all_last before k v after d :
  k ∉ after.*1 ->
  dict_get k (store_all (before ++ (k, v) :: after) d) = Some v.
Proof.
  intros Hk.
  assert (store_all (before ++ (k, v) :: after) d
          = store_all after (dict_set k v (store_all before d))) as ->.
  { unfold store_all. by rewrite fold_left_app. }
  rewrite store_all_untouched by done. apply dict_get_set_eq.
Qed.

End DictFacts.

(** ** Parsing the query output *)

Lemma partition_found sep a b :
  has_char sep a = false ->
  partition sep (a +:+ String sep b) = (a, String sep "", b).
Proof.
  induction a as [|c a IH]; simpl; intros Ha.
  - by rewrite Ascii.eqb_refl.
  - apply orb_false_iff in Ha as [Hc Ha]. by rewrite Hc, IH.
Qed.

Lemma partition_missing sep s :
  has_char sep s = false -> partition sep s = (s, "", "").
Proof.
  induction s as [|c s IH]; simpl; intros Hs; [done|].
  apply orb_false_iff in Hs as [Hc Hs]. by rewrite Hc, IH.
Qed.

Lemma first_space_partition s a b :
  first_space s a b -> exists m, partition " " s = (a, m, b).
Proof.
  intros [[Ha ->]|(Hs & -> & ->)].
  - eexists. by apply partition_found.
  - eexists. by apply partition_missing.
Qed.

Lemma partition_first_space s :
  first_space s (partition " " s).1.1 (partition " " s).2.
Proof.
  induction s as [|c s IH]; simpl.
  - by right.
  - destruct (Ascii.eqb c " ") eqn:Hc; simpl.
    + apply Ascii.eqb_eq in Hc as ->. by left.
    + destruct (partition " " s) as [[a m] b]. simpl in *.
      destruct IH as [[Ha ->]|(Hs & -> & ->)].
      * left. simpl. by rewrite Hc, Ha.
      * right. simpl. by rewrite Hc, Hs.
Qed.

Lemma first_space_fun s a b a' b' :
  first_space s a b -> first_space s a' b' -> a = a' /\ b = b'.
Proof.
  intros [m Hm]%first_space_partition [m' Hm']%first_space_partition.
  rewrite Hm in Hm'. by inversion Hm'.
Qed.

Lemma organize_line_entry temporary line :
  organize_line temporary line
  = dict_set (line_entry line).1 (line_entry line).2 temporary.
Proof.
  unfold organize_line, line_entry.
  destruct (partition " " line) as [[category m] value].
  destruct (_ || _); [|done].
  by destruct (partition " " value) as [[key m'] value'].
Qed.

Lemma is_set_or_tag category :
  String.eqb category "set" || String.eqb category "tag"
  = bool_decide (category = "set" \/ category = "tag").
Proof.
  destruct (String.eqb_spec category "set") as [->|H1]; [done|].
  destruct (String.eqb_spec category "tag") as [->|H2]; [done|].
  simpl. symmetry. apply bool_decide_eq_false. tauto.
Qed.

Lemma stores_line_entry line key value :
  stores line key value <-> line_entry line = (key, value).
Proof.
  unfold stores, line_entry. split.
  - intros (category & remainder & [m Hm]%first_space_partition & Hkv).
    rewrite Hm, is_set_or_tag. destruct (decide _) as [Hc|Hc].
    + rewrite bool_decide_eq_true_2 by done.
      apply first_space_partition in Hkv as [m' ->]. done.
    + rewrite bool_decide_eq_false_2 by done. by destruct Hkv as [-> ->].
  - intros Hle. pose proof (partition_first_space line) as Hfs.
    destruct (partition " " line) as [[category m] remainder]. simpl in Hfs.
    exists category, remainder. split; [done|].
    rewrite is_set_or_tag in Hle. destruct (decide _) as [Hc|Hc].
    + rewrite bool_decide_eq_true_2 in Hle by done.
      pose proof (partition_first_space remainder) as Hfs'.
      destruct (partition " " remainder) as [[k m'] v]. simpl in Hfs'.
      by inversion Hle; subst.
    + rewrite bool_decide_eq_false_2 in Hle by done. by inversion Hle.
Qed.

Lemma organize_data_store_all data :
  _organize_data data = store_all (line_entry <$> splitlines data) [].
Proof.
  unfold _organize_data, store_all. generalize (@nil (string * string)).
  induction (splitlines data) as [|line lines IH]; intros d; simpl; [done|].
  by rewrite organize_line_entry, IH.
Qed.

(** C4 (parsing).  Each line of the text stands for one entry: the line
    is split on its first space into a category and a remainder; for the
    categories [set] and [tag] the remainder is split again on its first
    space into key and value, otherwise the remainder is stored under the
    category.  The mapping returned has no key twice, its keys are those
    of the lines, the last line of a key decides its value, and a line
    without a space is stored with an empty value. *)
Theorem organize_data_spec (data : string) :
  let lines := splitlines data in
  let out := _organize_data data in
  (forall line, exists key value,
      stores line key value
      /\ (forall key' value', stores line key' value' ->
                              key' = key /\ value' = value)
      /\ forall temporary,
          organize_line temporary line = dict_set key value temporary)
  /\ NoDup (dict_keys out)
  /\ (forall key, key ∈ dict_keys out <->
                  exists line value, line ∈ lines /\ stores line key value)
  /\ (forall before line after key value,
         lines = before ++ line :: after ->
         stores line key value ->
         (forall line' value', line' ∈ after -> ~ stores line' key value') ->
         dict_get key out = Some value)
  /\ (forall line key value,
         has_char " " line = false -> stores line key value -> value = "").
Proof.
  intros lines out. subst lines out.
  split; [|split; [|split; [|split]]].
  - intros line. exists (line_entry line).1, (line_entry line).2.
    split; [|split].
    + apply stores_line_entry. by destruct (line_entry line).
    + intros key' value' H. apply stores_line_entry in H. by rewrite H.
    + intros t. apply organize_line_entry.
  - rewrite organize_data_store_all. apply store_all_NoDup. constructor.
  - intros key. rewrite organize_data_store_all, store_all_keys. split.
    + intros [Hk|Hk]; [|by apply elem_of_nil in Hk].
      apply list_elem_of_fmap in Hk as ([k v] & -> & Hkv).
      apply list_elem_of_fmap in Hkv as (line & Hle & Hline).
      exists line, v. split; [done|]. by apply stores_line_entry.
    + intros (line & value & Hline & Hst%stores_line_entry). left.
      apply list_elem_of_fmap. exists (key, value). split; [done|].
      apply list_elem_of_fmap. by exists line.
  - intros before line after key value Hlines Hst Hafter.
    rewrite organize_data_store_all, Hlines, fmap_app, fmap_cons.
    apply stores_line_entry in Hst. rewrite Hst.
    apply store_all_last. intros Hin.
    apply list_elem_of_fmap in Hin as ([k v] & -> & Hkv).
    apply list_elem_of_fmap in Hkv as (line' & Hle & Hline').
    apply (Hafter line' v Hline'). by apply stores_line_entry.
  - intros line key value Hsp (category & remainder & Hfs & Hkv).
    destruct Hfs as [[Hc ->]|(_ & -> & ->)].
    { exfalso. clear -Hsp. induction category as [|c s IH]; simpl in Hsp.
      - done.
      - apply orb_false_iff in Hsp as [_ Hsp]. by apply IH. }
    destruct (decide _).
    + destruct Hkv as [[_ Heq]|(_ & _ & ->)]; [|done].
      destruct key; discriminate.
    + by destruct Hkv as [_ ->].
Qed.

Lemma organize_data_spec_witness :
  let data := "set artist Foo" +:+ nl +:+ "tag artist Bar" +:+ nl +:+ "status" in
  splitlines data = ["set artist Foo"; "tag artist Bar"; "status"]
  /\ dict_get "artist" (_organize_data data) = Some "Bar"
  /\ dict_get "status" (_organize_data data) = Some "".
Proof.
  intros data.
  destruct (organize_data_spec data) as (_ & _ & _ & Hlast & Hempty).
  split; [reflexivity|]. split.
  - apply (Hlast ["set artist Foo"] "tag artist Bar" ["status"]).
    + reflexivity.
    + apply stores_line_entry. reflexivity.
    + intros line' value' Hin Hst%stores_line_entry.
      apply list_elem_of_singleton in Hin. subst line'. discriminate Hst.
  - apply (Hlast ["set artist Foo"; "tag artist Bar"] "status" []).
    + reflexivity.
    + apply stores_line_entry. reflexivity.
    + intros line' value' Hin. by apply elem_of_nil in Hin.
Defined.

(** ** Startup *)

(** C8 (startup precondition).  The hook asks the host once whether
    [cmus-remote] is on the search path; when it is not, the hook raises
    and no instance results; when it is, the hook returns the instance. *)
Theorem post_config_hook_fail_fast (py3 : Py3) (c : Config) :
  (found_on_path py3 "cmus-remote" = false ->
   post_config_hook py3 c
   = (Raise (Exception STRING_NOT_INSTALLED), [CheckCommands "cmus-remote"]))
  /\ (found_on_path py3 "cmus-remote" = true ->
      exists self,
        post_config_hook py3 c = (Ok self, [CheckCommands "cmus-remote"])
        /\ config self = c).
Proof.
  unfold post_config_hook, check_commands, bind. split; intros ->; simpl.
  - reflexivity.
  - eexists. split; reflexivity.
Qed.

Lemma post_config_hook_fail_fast_witness :
  post_config_hook no_cmus_host defaults
  = (Raise (Exception "isn't installed"), [CheckCommands "cmus-remote"])
  /\ exists self,
      post_config_hook (sample_host (Raise CommandError) (Raise CommandError))
                       defaults
      = (Ok self, [CheckCommands "cmus-remote"])
      /\ config self = defaults.
Proof.
  split.
  - apply (post_config_hook_fail_fast no_cmus_host defaults). reflexivity.
  - apply (post_config_hook_fail_fast
             (sample_host (Raise CommandError) (Raise CommandError)) defaults).
    reflexivity.
Defined.

(** ** Click dispatch *)

Lemma bind_ret_l {A B} (a : A) (f : A -> M B) : bind (ret a) f = f a.
Proof. unfold bind, ret. by destruct (f a). Qed.

Lemma trace_run py3 cmd :
  trace (_ <- command_run py3 cmd ;; ret tt) = [CommandRun cmd].
Proof. unfold command_run, bind. by destruct (exit_code_of py3 cmd). Qed.

(** C6 (click dispatch).  The clicked button is compared with the ten
    bindings in their fixed order; the first one equal to it has its one
    command run and nothing else happens; when none is equal no command
    is run and the host is told to prevent the refresh.  No query is made
    in either case. *)
Theorem on_click_dispatch (py3 : Py3) (self : Py3status)
        (event : dict pyval) (button : pyval) :
  dict_get "button" event = Some button ->
  trace (on_click py3 self event)
  = match first_match button (bindings self) with
    | Some cmd => [CommandRun cmd]
    | None => [PreventRefresh]
    end
  /\ (first_match button (bindings self) = None ->
      outcome (on_click py3 self event) = Ok tt)
  /\ forall argv, CommandOutput argv ∉ trace (on_click py3 self event).
Proof.
  intros Hb.
  assert (trace (on_click py3 self event)
          = match first_match button (bindings self) with
            | Some cmd => [CommandRun cmd]
            | None => [PreventRefresh]
            end
          /\ (first_match button (bindings self) = None ->
              outcome (on_click py3 self event) = Ok tt)) as [Ht Ho].
  { unfold on_click. rewrite Hb, bind_ret_l.
    unfold bindings. cbn [first_match].
    repeat (destruct (pyval_eqb button _);
            [split; [apply trace_run | discriminate]|]).
    split; [reflexivity | reflexivity]. }
  split; [done|split; [done|]].
  intros argv. rewrite Ht. destruct (first_match _ _); set_solver.
Qed.

Lemma on_click_dispatch_witness :
  trace (on_click (sample_host (Raise CommandError) (Raise CommandError))
                  (default_self) [("button", PyInt 3)])
  = [CommandRun "cmus-remote --stop"]
  /\ on_click (sample_host (Raise CommandError) (Raise CommandError))
              (default_self) [("button", PyInt 2)]
     = (Ok tt, [PreventRefresh]).
Proof.
  split.
  - destruct (on_click_dispatch
                (sample_host (Raise CommandError) (Raise CommandError))
                (default_self) [("button", PyInt 3)] (PyInt 3)) as [H _];
      [reflexivity | exact H].
  - destruct (on_click_dispatch
                (sample_host (Raise CommandError) (Raise CommandError))
                (default_self) [("button", PyInt 2)] (PyInt 2))
      as (Ht & Ho & _); [reflexivity|].
    specialize (Ho eq_refl).
    destruct (on_click _ _ _) as [r t]. simpl in *. by subst.
Defined.

(** ** The poll entry point *)

Lemma pyval_eqb_str (v : pyval) (s : string) :
  pyval_eqb v (PyStr s) = true <-> v = PyStr s.
Proof.
  destruct v; simpl; try (split; [discriminate|discriminate]).
  rewrite String.eqb_eq. split; [by intros ->|by intros [=]].
Qed.

Lemma dict_kwargs_trace kw data : trace (dict_kwargs kw data) = [].
Proof.
  revert kw. induction data as [|[k v] data IH]; intros kw; simpl; [done|].
  destruct (dict_mem k kw); [done|apply IH].
Qed.

Lemma dict_kwargs_ok kw data out :
  outcome (dict_kwargs kw data) = Ok out ->
  out = kw ++ data /\ forall k, k ∈ dict_keys kw -> dict_get k data = None.
Proof.
  revert kw. induction data as [|[k v] data IH]; intros kw; simpl.
  - intros [= <-]. by rewrite app_nil_r.
  - destruct (dict_mem k kw) eqn:Hk; [discriminate|].
    intros [-> Hfresh]%IH. split; [by rewrite <- app_assoc|].
    intros k' Hk'. destruct (String.eqb_spec k' k) as [->|Hne].
    + apply dict_mem_key in Hk'. congruence.
    + apply Hfresh. unfold dict_keys in *. rewrite fmap_app. set_solver.
Qed.

Lemma dict_kwargs_fresh kw data :
  (forall k, k ∈ dict_keys kw -> dict_get k data = None) ->
  NoDup (dict_keys data) ->
  dict_kwargs kw data = ret (kw ++ data).
Proof.
  revert kw. induction data as [|[k v] data IH]; intros kw Hfresh Hnd; simpl.
  - by rewrite app_nil_r.
  - apply NoDup_cons in Hnd as [Hk Hnd].
    destruct (dict_mem k kw) eqn:Hmem.
    + apply dict_mem_key, Hfresh in Hmem. simpl in Hmem.
      by rewrite String.eqb_refl in Hmem.
    + rewrite IH; [by rewrite <- app_assoc| |done].
      intros k' Hk'. unfold dict_keys in Hk'. rewrite fmap_app in Hk'.
      apply elem_of_app in Hk' as [Hk'|Hk'].
      * specialize (Hfresh k' Hk'). simpl in Hfresh.
        by destruct (String.eqb k' k).
      * apply list_elem_of_singleton in Hk'. simpl in Hk'. subst k'.
        by apply dict_get_None_key.
Qed.

Lemma dict_kwargs_dup kw data k :
  k ∈ dict_keys kw -> k ∈ dict_keys data ->
  exists k', dict_kwargs kw data = raise (DuplicateKeyword k').
Proof.
  revert kw. induction data as [|[k0 v0] data IH]; intros kw Hkw Hd; simpl.
  - by apply elem_of_nil in Hd.
  - destruct (dict_mem k0 kw) eqn:Hmem; [by eexists|].
    apply IH.
    + unfold dict_keys. rewrite fmap_app. set_solver.
    + unfold dict_keys in Hd. simpl in Hd.
      apply elem_of_cons in Hd as [->|Hd]; [|done].
      apply dict_mem_key in Hkw. congruence.
Qed.

(** What [cmus] does once its local variables are set. *)
Lemma cmus_unfold py3 self :
  cmus py3 self
  = match cmus_locals py3 self with
    | (Raise e, t) => (Raise e, t)
    | (Ok l, t) =>
        match l_data l with
        | Text _ => (Raise TypeError, t ++ [TimeIn (l_cached_until l)])
        | Mapping d =>
            let kw := control_placeholders (is_paused l) (is_playing l)
                                           (is_started l) (is_stopped l) in
            match outcome (dict_kwargs kw d) with
            | Raise e => (Raise e, t ++ [TimeIn (l_cached_until l)])
            | Ok params =>
                (Ok {| cached_until := clock_in py3 (l_cached_until l);
                       color := l_color l;
                       full_text := render py3 (format self) params |},
                 t ++ [TimeIn (l_cached_until l);
                       SafeFormat (format self) params])
            end
        end
    end.
Proof.
  unfold cmus, bind at 1. destruct (cmus_locals py3 self) as [[l|e] t]; [|done].
  unfold time_in, bind at 1. destruct (l_data l) as [s|d].
  - unfold raise, bind. simpl. done.
  - rewrite bind_ret_l. unfold control_placeholders.
    pose proof (dict_kwargs_trace
                  [("is_paused", is_paused l); ("is_playing", is_playing l);
                   ("is_started", PyBool (is_started l));
                   ("is_stopped", is_stopped l)] d) as Ht.
    unfold bind, outcome, trace in *.
    destruct (dict_kwargs _ d) as [[params|e] t']; simpl in *; subst t'.
    + done.
    + done.
Qed.

Lemma cmus_locals_unfold py3 self :
  cmus_locals py3 self
  = match output_of py3 query with
    | Raise _ => (Ok (idle_locals py3 self), [CommandOutput query])
    | Ok text =>
        match _manipulate_data py3 self (_organize_data text) with
        | (Raise e, t) => (Raise e, CommandOutput query :: t)
        | (Ok d, t) => (Ok (started_locals py3 self d), CommandOutput query :: t)
        end
    end.
Proof.
  unfold cmus_locals, _get_cmus_data, command_output, try_except, query.
  destruct (output_of py3 _) as [text|e]; cbn [bind ret app].
  - unfold bind.
    destruct (_manipulate_data py3 self (_organize_data text)) as [[d|e] t];
      [|done].
    unfold started_locals, ret.
    repeat (destruct (pyval_eqb _ _); [by rewrite app_nil_r|]).
    by rewrite app_nil_r.
  - done.
Qed.

Lemma pyval_eqb_str_false (v : pyval) (s : string) :
  pyval_eqb v (PyStr s) = false <-> v <> PyStr s.
Proof.
  rewrite <- pyval_eqb_str. by destruct (pyval_eqb v (PyStr s)).
Qed.

(** The flags and the colour for each value of the [status] field. *)
Lemma started_locals_cases py3 self d :
  let l := started_locals py3 self d in
  let status := dict_get_default "status" d in
  is_started l = true /\ l_cached_until l = cache_timeout self
  /\ l_data l = Mapping d
  /\ ((status = PyStr "playing"
       /\ is_playing l = PyBool true /\ is_paused l = PyNone
       /\ is_stopped l = PyNone /\ l_color l = color_playing self)
      \/ (status = PyStr "paused"
          /\ is_playing l = PyNone /\ is_paused l = PyBool true
          /\ is_stopped l = PyNone /\ l_color l = color_paused self)
      \/ (status = PyStr "stopped"
          /\ is_playing l = PyNone /\ is_paused l = PyNone
          /\ is_stopped l = PyBool true /\ l_color l = color_stopped self)
      \/ (status <> PyStr "playing" /\ status <> PyStr "paused"
          /\ status <> PyStr "stopped"
          /\ is_playing l = PyNone /\ is_paused l = PyNone
          /\ is_stopped l = PyNone /\ l_color l = COLOR_BAD py3)).
Proof.
  intros l status. subst l status. unfold started_locals.
  destruct (pyval_eqb _ (PyStr "playing")) eqn:E1.
  { apply pyval_eqb_str in E1. repeat split. by left. }
  destruct (pyval_eqb _ (PyStr "paused")) eqn:E2.
  { apply pyval_eqb_str in E2. repeat split. right. by left. }
  destruct (pyval_eqb _ (PyStr "stopped")) eqn:E3.
  { apply pyval_eqb_str in E3. repeat split. right. right. by left. }
  apply pyval_eqb_str_false in E1, E2, E3. repeat split.
  right. right. right. done.
Qed.

(** When [cmus] returns, its locals were set, the snapshot has none of
    the four control keys, and the last host call hands the template and
    the bindings to the renderer. *)
Lemma cmus_returns py3 self r :
  outcome (cmus py3 self) = Ok r ->
  exists l d,
    outcome (cmus_locals py3 self) = Ok l
    /\ l_data l = Mapping d
    /\ (forall k, k ∈ control_keys -> dict_get k d = None)
    /\ let params := control_placeholders (is_paused l) (is_playing l)
                       (is_started l) (is_stopped l) ++ d in
       r = {| cached_until := clock_in py3 (l_cached_until l);
              color := l_color l;
              full_text := render py3 (format self) params |}
       /\ trace (cmus py3 self)
          = trace (cmus_locals py3 self)
            ++ [TimeIn (l_cached_until l); SafeFormat (format self) params].
Proof.
  rewrite cmus_unfold. destruct (cmus_locals py3 self) as [[l|e] t]; [|done].
  destruct (l_data l) as [s|d] eqn:Hd; [done|]. cbn zeta.
  destruct (outcome (dict_kwargs _ d)) as [params|e] eqn:Hp; [|done].
  apply dict_kwargs_ok in Hp as [-> Hfresh]. intros [= <-].
  exists l, d. repeat split; try done.
Qed.

(** ** Playback state *)

(** C2 (playback state and colour), as the code has it.  Whenever a poll
    renders, the bindings handed to the renderer start with the four
    flags, and: if the query failed, [is_started] is false, nothing is
    set, no field is bound and the colour is [COLOR_BAD]; if the query
    answered, [is_started] is true, the fields are those of the
    transformed text, and if their [status] is [playing], [paused] or
    [stopped] exactly the matching flag is set and the colour is the
    configured one, or else [COLOR_GOOD], [COLOR_DEGRADED], [COLOR_BAD]
    respectively; for any other [status], or none, none of the three is
    set and the colour is [COLOR_BAD]. *)
Theorem playback_state_and_color (py3 : Py3) (c : Config)
        (self : Py3status) (r : response) :
  outcome (post_config_hook py3 c) = Ok self ->
  outcome (cmus py3 self) = Ok r ->
  exists paused playing started stopped d,
    last (trace (cmus py3 self))
    = Some (SafeFormat (format self)
              (control_placeholders paused playing started stopped ++ d))
    /\ (((exists e, output_of py3 query = Raise e)
         /\ started = false /\ d = []
         /\ playing = PyNone /\ paused = PyNone /\ stopped = PyNone
         /\ color r = COLOR_BAD py3)
        \/ (exists text,
              output_of py3 query = Ok text
              /\ outcome (_manipulate_data py3 self (_organize_data text))
                 = Ok d
              /\ started = true
              /\ let status := dict_get_default "status" d in
                 (status = PyStr "playing"
                  /\ playing = PyBool true /\ paused = PyNone
                  /\ stopped = PyNone
                  /\ color r = py_or (COLOR_PLAYING py3) (COLOR_GOOD py3))
                 \/ (status = PyStr "paused"
                     /\ playing = PyNone /\ paused = PyBool true
                     /\ stopped = PyNone
                     /\ color r
                        = py_or (COLOR_PAUSED py3) (COLOR_DEGRADED py3))
                 \/ (status = PyStr "stopped"
                     /\ playing = PyNone /\ paused = PyNone
                     /\ stopped = PyBool true
                     /\ color r = py_or (COLOR_STOPPED py3) (COLOR_BAD py3))
                 \/ (status <> PyStr "playing"
                     /\ status <> PyStr "paused"
                     /\ status <> PyStr "stopped"
                     /\ playing = PyNone /\ paused = PyNone
                     /\ stopped = PyNone
                     /\ color r = COLOR_BAD py3))).
Proof.
  intros Hhook Hr.
  assert (color_playing self = py_or (COLOR_PLAYING py3) (COLOR_GOOD py3)
          /\ color_paused self = py_or (COLOR_PAUSED py3) (COLOR_DEGRADED py3)
          /\ color_stopped self = py_or (COLOR_STOPPED py3) (COLOR_BAD py3))
    as (Hplaying & Hpaused & Hstopped).
  { revert Hhook. unfold post_config_hook, check_commands, bind.
    destruct (found_on_path py3 "cmus-remote"); simpl; [|discriminate].
    by intros [= <-]. }
  apply cmus_returns in Hr as (l & d & Hl & Hd & _ & -> & Ht).
  exists (is_paused l), (is_playing l), (is_started l), (is_stopped l), d.
  split. { rewrite Ht. by rewrite last_app. }
  revert Hl Hd. rewrite cmus_locals_unfold.
  destruct (output_of py3 query) as [text|e].
  - destruct (_manipulate_data _ _ _) as [[d'|e] t] eqn:Hm; [|discriminate].
    intros [= <-] Hd.
    destruct (started_locals_cases py3 self d') as (Hs & _ & Hd' & Hcases).
    rewrite Hd' in Hd. injection Hd as ->. right. exists text.
    split; [done|]. split; [by rewrite Hm|]. split; [done|].
    cbn [color]. rewrite <- Hplaying, <- Hpaused, <- Hstopped.
    destruct Hcases as [H|[H|[H|H]]]; [left|right; left|do 2 right; left|
                                       do 3 right]; tauto.
  - intros [= <-] [= <-]. left. split; [by exists e|]. done.
Qed.

Lemma playback_state_and_color_witness :
  exists r paused playing started stopped d,
    cmus (sample_host (Ok "status paused") (Raise CommandError))
         (default_self)
    = (Ok r, [CommandOutput query; TimeIn 5;
              SafeFormat (format defaults)
                (control_placeholders paused playing started stopped ++ d)])
    /\ started = true /\ paused = PyBool true /\ playing = PyNone
    /\ stopped = PyNone /\ color r = PyStr "#FFFF00".
Proof.
  set (host := sample_host (Ok "status paused") (Raise CommandError)).
  destruct (playback_state_and_color host defaults (default_self)
              {| cached_until := 1005; color := PyStr "#FFFF00";
                 full_text := format defaults |})
    as (paused & playing & started & stopped & d & Hlast & Hcases);
    [reflexivity | reflexivity |].
  vm_compute in Hlast. injection Hlast as <- <- <- <- <-.
  do 6 eexists. split; [reflexivity|]. repeat split.
Defined.

(** With a [status] that is none of the three, the player counts as
    started and none of the three flags is set: the poll is in none of
    the four states. *)
Lemma started_without_state :
  exists r,
    cmus buffering_host (default_self)
    = (Ok r, [CommandOutput query; TimeIn 5;
              SafeFormat (format defaults)
                (control_placeholders PyNone PyNone true PyNone
                 ++ [("status", PyStr "buffering")])])
    /\ ~ one_of_four_states PyNone PyNone true PyNone.
Proof.
  eexists. split; [vm_compute; reflexivity|].
  intros [[[=] _]|[_ [=]]].
Qed.

(** C5 (query failure).  When the query command fails, with whatever
    exception, the fetch returns [(False, {})] and [cmus] returns a
    result: nothing but the four flags is bound, [is_started] is false
    and the others are unset, the colour is [COLOR_BAD] and the expiry is
    the sleep timeout. *)
Theorem query_failure_is_idle (py3 : Py3) (self : Py3status) (e : exn) :
  output_of py3 query = Raise e ->
  _get_cmus_data py3 = (Ok (false, Mapping []), [CommandOutput query])
  /\ let params := control_placeholders PyNone PyNone false PyNone in
     cmus py3 self
     = (Ok {| cached_until := clock_in py3 (sleep_timeout self);
              color := COLOR_BAD py3;
              full_text := render py3 (format self) params |},
        [CommandOutput query; TimeIn (sleep_timeout self);
         SafeFormat (format self) params]).
Proof.
  intros He. split.
  - unfold _get_cmus_data, try_except, command_output, bind. fold query.
    by rewrite He.
  - cbn zeta. rewrite cmus_unfold, cmus_locals_unfold, He. reflexivity.
Qed.

Lemma query_failure_is_idle_witness :
  cmus (sample_host (Raise CommandError) (Raise CommandError))
       default_self
  = (Ok {| cached_until := 1020; color := PyStr "#FF0000";
           full_text := format defaults |},
     [CommandOutput query; TimeIn 20;
      SafeFormat (format defaults)
                 [("is_paused", PyNone); ("is_playing", PyNone);
                  ("is_started", PyBool false); ("is_stopped", PyNone)]]).
Proof.
  destruct (query_failure_is_idle
              (sample_host (Raise CommandError) (Raise CommandError))
              default_self CommandError) as [_ H]; [reflexivity|].
  exact H.
Defined.

(** C9 (flag invariant).  The flags a poll computes are never in an
    invalid combination: either [is_started] is false and the other
    three are unset, or it is true and at most one of them is set; and
    these are the flags bound in the render request. *)
Theorem flags_invariant (py3 : Py3) (self : Py3status) (l : locals) :
  outcome (cmus_locals py3 self) = Ok l ->
  valid_flags (is_paused l) (is_playing l) (is_started l) (is_stopped l)
  /\ forall r, outcome (cmus py3 self) = Ok r ->
       exists d,
         last (trace (cmus py3 self))
         = Some (SafeFormat (format self)
                   (control_placeholders (is_paused l) (is_playing l)
                      (is_started l) (is_stopped l) ++ d)).
Proof.
  intros Hl. split.
  - revert Hl. rewrite cmus_locals_unfold.
    destruct (output_of py3 query) as [text|e].
    + destruct (_manipulate_data _ _ _) as [[d|e] t]; [|discriminate].
      intros [= <-].
      destruct (started_locals_cases py3 self d) as (Hs & _ & _ & Hcases).
      right. split; [done|].
      destruct Hcases as [(_ & -> & -> & -> & _)|[(_ & -> & -> & -> & _)|
                          [(_ & -> & -> & -> & _)|
                           (_ & _ & _ & -> & -> & -> & _)]]];
        unfold count_set; simpl; lia.
    + intros [= <-]. by left.
  - intros r (l' & d & Hl' & _ & _ & _ & Ht)%cmus_returns.
    rewrite Hl in Hl'. injection Hl' as <-.
    exists d. rewrite Ht. by rewrite last_app.
Qed.

Lemma flags_invariant_witness :
  exists l,
    outcome (cmus_locals (sample_host (Ok "status stopped") (Raise CommandError))
                         (default_self)) = Ok l
    /\ is_stopped l = PyBool true
    /\ valid_flags (is_paused l) (is_playing l) (is_started l) (is_stopped l).
Proof.
  eexists. split; [reflexivity|]. split; [reflexivity|].
  apply (flags_invariant (sample_host (Ok "status stopped") (Raise CommandError))
                         (default_self)).
  reflexivity.
Defined.

(** C10 (control keys in the snapshot).  [cmus] returns a result only
    when the snapshot has none of the keys [is_paused], [is_playing],
    [is_started], [is_stopped]; when it has one of them the keyword
    arguments collide and [cmus] raises instead, as for the line
    [set is_paused x]. *)
Theorem control_keys_collide (py3 : Py3) (self : Py3status)
        (l : locals) (d : dict pyval) :
  outcome (cmus_locals py3 self) = Ok l ->
  l_data l = Mapping d ->
  (forall r, outcome (cmus py3 self) = Ok r ->
             forall k, k ∈ control_keys -> k ∉ dict_keys d)
  /\ (forall k, k ∈ control_keys -> k ∈ dict_keys d ->
        exists k', outcome (cmus py3 self) = Raise (DuplicateKeyword k'))
  /\ ((forall k, k ∈ control_keys -> k ∉ dict_keys d) ->
      NoDup (dict_keys d) ->
      exists r, outcome (cmus py3 self) = Ok r).
Proof.
  intros Hl Hd. split; [|split].
  - intros r (l' & d' & Hl' & Hd' & Hfresh & _)%cmus_returns k Hk.
    rewrite Hl in Hl'. injection Hl' as <-.
    rewrite Hd in Hd'. injection Hd' as <-.
    by apply dict_get_None_key, Hfresh.
  - intros k Hk Hin. rewrite cmus_unfold.
    destruct (cmus_locals py3 self) as [[l'|e] t]; [|done].
    injection Hl as ->. rewrite Hd. cbn zeta.
    destruct (dict_kwargs_dup
                (control_placeholders (is_paused l) (is_playing l)
                   (is_started l) (is_stopped l)) d k Hk Hin) as [k' ->].
    by exists k'.
  - intros Hfresh Hnd. rewrite cmus_unfold.
    destruct (cmus_locals py3 self) as [[l'|e] t]; [|done].
    injection Hl as ->. rewrite Hd. cbn zeta.
    rewrite dict_kwargs_fresh; [by eexists| |done].
    intros k Hk. by apply dict_get_None_key, Hfresh.
Qed.

Lemma control_keys_collide_witness :
  let host := sample_host (Ok "set is_paused x") (Raise CommandError) in
  outcome (cmus_locals host (default_self))
  = Ok (started_locals host (default_self) [("is_paused", PyStr "x")])
  /\ exists k', outcome (cmus host (default_self))
                = Raise (DuplicateKeyword k').
Proof.
  intros host. split; [reflexivity|].
  destruct (control_keys_collide host (default_self)
              (started_locals host (default_self)
                              [("is_paused", PyStr "x")])
              [("is_paused", PyStr "x")]) as (_ & Hdup & _);
    [reflexivity | reflexivity |].
  apply (Hdup "is_paused").
  - apply list_elem_of_In. simpl. tauto.
  - apply list_elem_of_In. simpl. tauto.
Defined.

(** ** Substring tests *)

Lemma startswith_spec p s :
  startswith p s = true <-> exists b, s = p +:+ b.
Proof.
  revert s. induction p as [|c p IH]; intros s; simpl.
  - split; [by exists s|done].
  - destruct s as [|c' s].
    + split; [done|by intros [b [=]]].
    + rewrite andb_true_iff, Ascii.eqb_eq, IH. split.
      * intros [-> [b ->]]. by exists b.
      * intros [b [= -> ->]]. split; [done|by exists b].
Qed.

Lemma contains_spec p s :
  contains p s = true <-> exists a b, s = a +:+ p +:+ b.
Proof.
  induction s as [|c s IH]; simpl.
  - rewrite orb_false_r, startswith_spec. split.
    + intros [b ->]. by exists "", b.
    + intros (a & b & H). destruct a; [by exists b|discriminate].
  - rewrite orb_true_iff, startswith_spec, IH. split.
    + intros [[b ->]|(a & b & ->)]; [by exists "", b|by exists (String c a), b].
    + intros (a & b & H). destruct a as [|c' a]; simpl in H.
      * left. by exists b.
      * right. injection H as -> ->. by exists a, b.
Qed.

(** ** The transformer *)

Lemma seconds_to_time_int n : exists t, _seconds_to_time (PyInt n) = ret t.
Proof.
  unfold _seconds_to_time, py_int. rewrite bind_ret_l. unfold divmod.
  by eexists.
Qed.

Lemma seconds_to_time_str value :
  _seconds_to_time (PyStr value)
  = match int_of_str value with
    | Some n => _seconds_to_time (PyInt n)
    | None => raise ValueError
    end.
Proof.
  unfold _seconds_to_time, py_int. by destruct (int_of_str value).
Qed.

Lemma is_time_key_eqb key :
  String.eqb key "duration" || String.eqb key "position"
  = bool_decide (is_time_key key).
Proof.
  unfold is_time_key.
  destruct (String.eqb_spec key "duration") as [->|H1]; [done|].
  destruct (String.eqb_spec key "position") as [->|H2]; [done|].
  simpl. symmetry. apply bool_decide_eq_false. tauto.
Qed.

Lemma normalise_eqb value :
  (if String.eqb value "true" || String.eqb value "enabled" then PyBool true
   else if String.eqb value "false" || String.eqb value "disabled"
        then PyBool false else PyStr value)
  = normalise value.
Proof.
  unfold normalise.
  destruct (String.eqb_spec value "true") as [->|H1]; [done|].
  destruct (String.eqb_spec value "enabled") as [->|H2]; [done|].
  destruct (String.eqb_spec value "false") as [->|H3]; [done|].
  destruct (String.eqb_spec value "disabled") as [->|H4]; [done|].
  simpl. rewrite !decide_False by tauto. done.
Qed.

(** One round of the loop: a time key keeps its value and gains its
    derived entry, or raises when the value is no integer; any other key
    is normalised. *)
Lemma manipulate_entry_time temporary key value :
  is_time_key key ->
  manipulate_entry temporary (key, value)
  = match int_of_str value with
    | Some n =>
        t <- _seconds_to_time (PyInt n) ;;
        ret (dict_set key (PyStr value)
               (dict_set (key +:+ "time") (PyStr t) temporary))
    | None => raise ValueError
    end.
Proof.
  intros Hk. unfold manipulate_entry.
  rewrite is_time_key_eqb, bool_decide_eq_true_2 by done.
  rewrite seconds_to_time_str. by destruct (int_of_str value).
Qed.

Lemma manipulate_entry_plain temporary key value :
  ~ is_time_key key ->
  manipulate_entry temporary (key, value)
  = ret (dict_set key (normalise value) temporary).
Proof.
  intros Hk. unfold manipulate_entry.
  rewrite is_time_key_eqb, bool_decide_eq_false_2 by done.
  rewrite <- normalise_eqb.
  by repeat destruct (_ || _).
Qed.

Lemma manipulate_entry_trace temporary item :
  trace (manipulate_entry temporary item) = [].
Proof.
  destruct item as [key value]. destruct (decide (is_time_key key)) as [Hk|Hk].
  - rewrite manipulate_entry_time by done.
    destruct (int_of_str value) as [n|]; [|done].
    destruct (seconds_to_time_int n) as [t ->]. by rewrite bind_ret_l.
  - by rewrite manipulate_entry_plain.
Qed.

Lemma foldM_manipulate_trace temporary items :
  trace (foldM manipulate_entry temporary items) = [].
Proof.
  revert temporary. induction items as [|item items IH]; intros t; [done|].
  simpl. pose proof (manipulate_entry_trace t item) as Ht. unfold bind.
  destruct (manipulate_entry t item) as [[t'|e] tr]; simpl in Ht; subst tr;
    [|done].
  specialize (IH t'). by destruct (foldM manipulate_entry t' items).
Qed.

Lemma foldM_manipulate_cons temporary item items out :
  outcome (foldM manipulate_entry temporary (item :: items)) = Ok out ->
  exists t', manipulate_entry temporary item = ret t'
             /\ outcome (foldM manipulate_entry t' items) = Ok out.
Proof.
  simpl. pose proof (manipulate_entry_trace temporary item) as Ht.
  unfold bind. destruct (manipulate_entry temporary item) as [[t'|e] tr];
    simpl in Ht; subst tr; [|done].
  intros H. exists t'. split; [done|].
  by destruct (foldM manipulate_entry t' items).
Qed.

Lemma manipulate_entry_other temporary key value t' k :
  manipulate_entry temporary (key, value) = ret t' ->
  k <> key -> ~ derives key k ->
  dict_get k t' = dict_get k temporary.
Proof.
  intros Hstep Hne Hder. destruct (decide (is_time_key key)) as [Hk|Hk].
  - rewrite manipulate_entry_time in Hstep by done.
    destruct (int_of_str value) as [n|]; [|done].
    destruct (seconds_to_time_int n) as [t Ht]. rewrite Ht, bind_ret_l in Hstep.
    injection Hstep as <-.
    rewrite (dict_get_set_ne key k) by done.
    rewrite (dict_get_set_ne (key +:+ "time") k); [done|].
    intros <-. by apply Hder.
  - rewrite manipulate_entry_plain in Hstep by done. injection Hstep as <-.
    by rewrite dict_get_set_ne.
Qed.

Lemma foldM_manipulate_other temporary items out k :
  outcome (foldM manipulate_entry temporary items) = Ok out ->
  k ∉ items.*1 ->
  (forall key, key ∈ items.*1 -> ~ derives key k) ->
  dict_get k out = dict_get k temporary.
Proof.
  revert temporary. induction items as [|[key value] items IH];
    intros t Hout Hk Hder.
  - by injection Hout as <-.
  - apply foldM_manipulate_cons in Hout as (t' & Hstep & Hout).
    rewrite (IH t' Hout); [|set_solver|set_solver].
    apply (manipulate_entry_other _ _ _ _ _ Hstep); set_solver.
Qed.

Lemma foldM_manipulate_key temporary items out key value :
  outcome (foldM manipulate_entry temporary items) = Ok out ->
  NoDup items.*1 ->
  (key, value) ∈ items ->
  (forall key', key' ∈ items.*1 -> ~ derives key' key) ->
  dict_get key out
  = Some (if decide (is_time_key key) then PyStr value else normalise value).
Proof.
  revert temporary. induction items as [|[key0 value0] items IH];
    intros t Hout Hnd Hin Hder.
  - by apply elem_of_nil in Hin.
  - apply foldM_manipulate_cons in Hout as (t' & Hstep & Hout).
    simpl in Hnd. apply NoDup_cons in Hnd as [Hfresh Hnd].
    apply elem_of_cons in Hin as [[= -> ->]|Hin].
    + rewrite (foldM_manipulate_other _ _ _ _ Hout Hfresh) by set_solver.
      destruct (decide (is_time_key key0)) as [Hk|Hk].
      * rewrite manipulate_entry_time in Hstep by done.
        destruct (int_of_str value0) as [n|]; [|done].
        destruct (seconds_to_time_int n) as [tt Ht].
        rewrite Ht, bind_ret_l in Hstep. injection Hstep as <-.
        apply dict_get_set_eq.
      * rewrite manipulate_entry_plain in Hstep by done.
        injection Hstep as <-. apply dict_get_set_eq.
    + apply (IH t' Hout Hnd Hin). set_solver.
Qed.

Lemma time_key_not_derived key : is_time_key key -> key +:+ "time" <> key.
Proof. by intros [->| ->]. Qed.

Lemma derives_time_key key key' :
  is_time_key key -> derives key' (key +:+ "time") -> key' = key.
Proof.
  intros [->| ->] [[->| ->] H]; simpl in H; try done.
Qed.

Lemma foldM_manipulate_time temporary items out key value :
  is_time_key key ->
  outcome (foldM manipulate_entry temporary items) = Ok out ->
  NoDup items.*1 ->
  (key, value) ∈ items ->
  key +:+ "time" ∉ items.*1 ->
  exists n t, int_of_str value = Some n
              /\ _seconds_to_time (PyInt n) = ret t
              /\ dict_get (key +:+ "time") out = Some (PyStr t).
Proof.
  intros Hkey. revert temporary.
  induction items as [|[key0 value0] items IH]; intros t Hout Hnd Hin Hnew.
  - by apply elem_of_nil in Hin.
  - apply foldM_manipulate_cons in Hout as (t' & Hstep & Hout).
    simpl in Hnd. apply NoDup_cons in Hnd as [Hfresh Hnd].
    apply elem_of_cons in Hin as [[= -> ->]|Hin].
    + rewrite manipulate_entry_time in Hstep by done.
      destruct (int_of_str value0) as [n|]; [|done].
      destruct (seconds_to_time_int n) as [tt Ht].
      rewrite Ht, bind_ret_l in Hstep. injection Hstep as <-.
      exists n, tt. split; [done|]. split; [done|].
      rewrite (foldM_manipulate_other _ _ _ _ Hout).
      * rewrite dict_get_set_ne by (intros H; symmetry in H; by apply time_key_not_derived in H).
        apply dict_get_set_eq.
      * set_solver.
      * intros key' Hin' Hder. apply derives_time_key in Hder; [|done].
        by subst key'.
    + apply (IH t' Hout Hnd Hin). set_solver.
Qed.

Lemma foldM_manipulate_returns temporary items :
  times_parse items ->
  exists out, foldM manipulate_entry temporary items = ret out.
Proof.
  revert temporary. induction items as [|[key value] items IH];
    intros t Hparse; [by eexists|].
  cbn [foldM].
  assert (exists t', manipulate_entry t (key, value) = ret t') as [t' ->].
  { destruct (decide (is_time_key key)) as [Hk|Hk].
    - rewrite manipulate_entry_time by done.
      destruct (Hparse key value) as [n ->]; [set_solver|done|].
      destruct (seconds_to_time_int n) as [tt ->]. rewrite bind_ret_l.
      by eexists.
    - rewrite manipulate_entry_plain by done. by eexists. }
  rewrite bind_ret_l. apply IH. intros k v Hin. apply Hparse. set_solver.
Qed.

Lemma manipulate_entry_outcome temporary key value :
  (is_time_key key /\ int_of_str value = None
   /\ manipulate_entry temporary (key, value) = raise ValueError)
  \/ exists t', manipulate_entry temporary (key, value) = ret t'.
Proof.
  destruct (decide (is_time_key key)) as [Hk|Hk].
  - rewrite manipulate_entry_time by done.
    destruct (int_of_str value) as [n|]; [|by left].
    destruct (seconds_to_time_int n) as [t ->]. rewrite bind_ret_l.
    right. by eexists.
  - rewrite manipulate_entry_plain by done. right. by eexists.
Qed.

Lemma foldM_manipulate_bad temporary items key value :
  (key, value) ∈ items -> is_time_key key -> int_of_str value = None ->
  foldM manipulate_entry temporary items = raise ValueError.
Proof.
  intros Hin Hk Hv. revert temporary.
  induction items as [|[key0 value0] items IH]; intros t.
  - by apply elem_of_nil in Hin.
  - cbn [foldM].
    destruct (manipulate_entry_outcome t key0 value0)
      as [(_ & _ & ->)|[t' Hstep]]; [done|].
    apply elem_of_cons in Hin as [[= -> ->]|Hin].
    + rewrite manipulate_entry_time in Hstep by done.
      by rewrite Hv in Hstep.
    + rewrite Hstep, bind_ret_l. by apply IH.
Qed.

Lemma manipulate_data_unfold py3 self data :
  _manipulate_data py3 self data
  = match outcome (foldM manipulate_entry [] data) with
    | Raise e => (Raise e, [])
    | Ok t0 =>
        let t1 := if dict_mem "stream" data
                  then dict_set "stream" (PyBool true) t0 else t0 in
        if use_follow self then
          match output_of py3 raw_follow with
          | Ok resp =>
              (Ok (dict_set "follow" (PyBool (contains "true" resp)) t1),
               [CommandOutput raw_follow])
          | Raise e => (Raise e, [CommandOutput raw_follow])
          end
        else (Ok t1, [])
    end.
Proof.
  unfold _manipulate_data. pose proof (foldM_manipulate_trace [] data) as Ht.
  unfold outcome, trace in *. unfold bind at 1.
  destruct (foldM manipulate_entry [] data) as [[t0|e] tr]; simpl in *;
    subst tr; [|done].
  destruct (use_follow self); [|done].
  unfold command_output, bind, raw_follow.
  destruct (output_of py3 _) as [resp|e]; [|done].
  by destruct (contains "true" resp).
Qed.

Lemma dict_get_Some_elem {V} (k : string) (v : V) (d : dict V) :
  dict_get k d = Some v -> (k, v) ∈ d.
Proof.
  induction d as [|[k0 v0] d IH]; simpl; [done|].
  destruct (String.eqb_spec k k0) as [->|Hne].
  - intros [= ->]. set_solver.
  - set_solver.
Qed.

(** What the passes after the loop leave alone. *)
Lemma manipulate_data_lookup py3 self data out :
  outcome (_manipulate_data py3 self data) = Ok out ->
  exists t0,
    outcome (foldM manipulate_entry [] data) = Ok t0
    /\ (dict_mem "stream" data = true ->
        dict_get "stream" out = Some (PyBool true))
    /\ forall k, k <> "stream" -> (k = "follow" -> use_follow self = false) ->
                 dict_get k out = dict_get k t0.
Proof.
  rewrite manipulate_data_unfold.
  destruct (outcome (foldM manipulate_entry [] data)) as [t0|e]; [|done].
  cbn zeta. intros Hout. exists t0. split; [done|].
  destruct (use_follow self).
  - destruct (output_of py3 raw_follow) as [resp|e]; [|done].
    injection Hout as <-. split.
    + intros ->. rewrite dict_get_set_ne by done. apply dict_get_set_eq.
    + intros k Hs Hf. rewrite dict_get_set_ne by (intros <-; by specialize (Hf eq_refl)).
      destruct (dict_mem "stream" data); [|done].
      by rewrite dict_get_set_ne.
  - injection Hout as <-. split.
    + intros ->. apply dict_get_set_eq.
    + intros k Hs _. destruct (dict_mem "stream" data); [|done].
      by rewrite dict_get_set_ne.
Qed.

(** C3 (token normalisation), as the code has it.  The transformer
    returns whenever the values of [duration] and [position] are integer
    literals and the follow query, when the flag asks for it, answers.
    When it returns: [stream], if present, is true; [duration] and
    [position] keep their value and, unless the mapping has a key of
    that name itself, gain [<key>time] holding the formatted time; and any
    other key holds true for [true]/[enabled], false for
    [false]/[disabled] and its own string otherwise, except [follow] when
    the flag is set, and [durationtime]/[positiontime] when the key they
    derive from is present. *)
Theorem manipulate_data_spec (py3 : Py3) (self : Py3status)
        (data : dict string) :
  NoDup (dict_keys data) ->
  (times_parse data ->
   (use_follow self = true -> exists resp, output_of py3 raw_follow = Ok resp) ->
   exists out, outcome (_manipulate_data py3 self data) = Ok out)
  /\ forall out, outcome (_manipulate_data py3 self data) = Ok out ->
     forall key value, dict_get key data = Some value ->
       (key = "stream" -> dict_get key out = Some (PyBool true))
       /\ (is_time_key key ->
           dict_get key out = Some (PyStr value)
           /\ (dict_get (key +:+ "time") data = None ->
               exists n t, int_of_str value = Some n
                           /\ _seconds_to_time (PyInt n) = ret t
                           /\ dict_get (key +:+ "time") out = Some (PyStr t)))
       /\ (key <> "stream" -> ~ is_time_key key ->
           (key = "follow" -> use_follow self = false) ->
           (forall key', is_time_key key' -> key = key' +:+ "time" ->
                         dict_get key' data = None) ->
           dict_get key out = Some (normalise value)).
Proof.
  intros Hnd. split.
  - intros Hparse Hfollow. rewrite manipulate_data_unfold.
    destruct (foldM_manipulate_returns [] data Hparse) as [t0 ->].
    cbn [outcome ret fst]. cbn zeta.
    destruct (use_follow self); [|by eexists].
    destruct Hfollow as [resp ->]; [done|]. by eexists.
  - intros out (t0 & Hloop & Hstream & Hother)%manipulate_data_lookup
           key value Hget.
    pose proof (dict_get_Some_elem _ _ _ Hget) as Hin.
    split; [|split].
    + intros ->. apply Hstream. unfold dict_mem. by rewrite Hget.
    + intros Hkey.
      assert (key <> "stream" /\ key <> "follow"
              /\ key +:+ "time" <> "stream" /\ key +:+ "time" <> "follow")
        as (N1 & N2 & N3 & N4) by (by destruct Hkey as [->| ->]).
      split.
      * rewrite Hother by done.
        rewrite (foldM_manipulate_key _ _ _ _ _ Hloop Hnd Hin).
        { by rewrite decide_True. }
        intros key' _ [Hk' ->]. by destruct Hkey as [H|H], Hk' as [->| ->].
      * intros Hnew. rewrite Hother by done.
        apply (foldM_manipulate_time _ _ _ _ _ Hkey Hloop Hnd Hin).
        by apply dict_get_None_key in Hnew.
    + intros Hs Hk Hf Hder. rewrite Hother by done.
      rewrite (foldM_manipulate_key _ _ _ _ _ Hloop Hnd Hin).
      { by rewrite decide_False. }
      intros key' Hin' [Hk' ->].
      specialize (Hder key' Hk' eq_refl). by apply dict_get_None_key in Hder.
Qed.

Lemma manipulate_data_spec_witness :
  let host := sample_host (Raise CommandError) (Ok "true") in
  let data := [("status", "playing"); ("duration", "171");
               ("shuffle", "enabled"); ("stream", "http://radio")] in
  NoDup (dict_keys data)
  /\ outcome (_manipulate_data host follow_self data)
     = Ok [("status", PyStr "playing"); ("durationtime", PyStr "02:51");
           ("duration", PyStr "171"); ("shuffle", PyBool true);
           ("stream", PyBool true); ("follow", PyBool true)]
  /\ forall out,
      outcome (_manipulate_data host follow_self data) = Ok out ->
      dict_get "shuffle" out = Some (PyBool true)
      /\ dict_get "stream" out = Some (PyBool true)
      /\ dict_get "duration" out = Some (PyStr "171").
Proof.
  intros host data.
  assert (NoDup (dict_keys data)) as Hnd.
  { apply NoDup_ListNoDup. repeat constructor; simpl; intuition discriminate. }
  split; [exact Hnd|]. split; [reflexivity|].
  intros out Hout.
  destruct (manipulate_data_spec host follow_self data Hnd)
    as [_ Hspec].
  split; [|split].
  - destruct (Hspec out Hout "shuffle" "enabled" eq_refl) as (_ & _ & H).
    apply H; try discriminate.
    + by intros [H1|H1].
    + intros key' [->| ->]; discriminate.
  - destruct (Hspec out Hout "stream" "http://radio" eq_refl) as (H & _).
    by apply H.
  - destruct (Hspec out Hout "duration" "171" eq_refl) as (_ & H & _).
    apply H. by left.
Defined.

(** With the follow flag set, the value of [follow] in the snapshot does
    not decide the result: [false] comes out as true when the raw query
    says so. *)
Lemma follow_value_overridden :
  let host := sample_host (Ok "set follow false") (Ok "true") in
  exists out,
    outcome (post_config_hook host follow_config) = Ok follow_self
    /\ _organize_data "set follow false" = [("follow", "false")]
    /\ outcome (_manipulate_data host follow_self [("follow", "false")]) = Ok out
    /\ dict_get "follow" out = Some (PyBool true)
    /\ dict_get "follow" out <> Some (normalise "false").
Proof.
  intros host. eexists. split; [reflexivity|]. split; [reflexivity|].
  split; [reflexivity|]. split; [reflexivity|]. discriminate.
Qed.

(** ** The follow query *)

Lemma use_follow_scan py3 c self :
  outcome (post_config_hook py3 c) = Ok self ->
  use_follow self
  = contains "if=follow" (format c) || contains "if=!follow" (format c)
    || contains "{follow}" (format c).
Proof.
  unfold post_config_hook, check_commands, bind.
  destruct (found_on_path py3 "cmus-remote"); simpl; [|discriminate].
  intros [= <-]. simpl.
  by destruct (contains "if=follow" _), (contains "if=!follow" _),
       (contains "{follow}" _).
Qed.

(** C7 (follow query), as the code has it.  The flag is set by the
    startup hook exactly when the template contains one of [if=follow],
    [if=!follow], [{follow}].  With the flag set, a transformation whose
    [duration] and [position] are integer literals makes exactly the one
    raw query [set follow]; if the query answers, [follow] is bound to
    whether [true] occurs anywhere in the answer, and if it fails its
    exception leaves the transformation.  A transformation that meets a
    [duration] or [position] that is no integer literal raises
    [ValueError] before the query and makes no call.  With the flag
    unset, no call is made at all. *)
Theorem follow_query_gate (py3 : Py3) (c : Config) (self : Py3status)
        (data : dict string) :
  outcome (post_config_hook py3 c) = Ok self ->
  (use_follow self = true <->
   exists p a b,
     (p = "if=follow" \/ p = "if=!follow" \/ p = "{follow}")
     /\ format c = a +:+ p +:+ b)
  /\ (use_follow self = true ->
      (times_parse data ->
       trace (_manipulate_data py3 self data) = [CommandOutput raw_follow]
       /\ match output_of py3 raw_follow with
          | Ok resp =>
              exists out,
                outcome (_manipulate_data py3 self data) = Ok out
                /\ dict_get "follow" out
                   = Some (PyBool (contains "true" resp))
                /\ (dict_get "follow" out = Some (PyBool true) <->
                    exists a b, resp = a +:+ "true" +:+ b)
          | Raise e => outcome (_manipulate_data py3 self data) = Raise e
          end)
      /\ (forall key value,
            (key, value) ∈ data -> is_time_key key ->
            int_of_str value = None ->
            _manipulate_data py3 self data = (Raise ValueError, [])))
  /\ (use_follow self = false ->
      trace (_manipulate_data py3 self data) = []
      /\ CommandOutput raw_follow ∉ trace (cmus py3 self)).
Proof.
  intros Hhook. split; [|split].
  - rewrite (use_follow_scan _ _ _ Hhook), !orb_true_iff, !contains_spec.
    split.
    + intros [[(a & b & H)|(a & b & H)]|(a & b & H)];
        eexists _, a, b; (split; [|exact H]); tauto.
    + intros (p & a & b & [->|[->| ->]] & H);
        [left; left|left; right|right]; by exists a, b.
  - intros Hflag. rewrite manipulate_data_unfold, Hflag. split.
    + intros Hparse.
      destruct (foldM_manipulate_returns [] data Hparse) as [t0 ->].
      cbn [outcome ret fst]. cbn zeta.
      destruct (output_of py3 raw_follow) as [resp|e]; [|done].
      split; [done|]. eexists. split; [reflexivity|].
      rewrite dict_get_set_eq. split; [done|].
      rewrite <- contains_spec. split; [by intros [= ->]|by intros ->].
    + intros key value Hin Hk Hv.
      by rewrite (foldM_manipulate_bad [] data key value Hin Hk Hv).
  - intros Hflag.
    assert (trace (_manipulate_data py3 self data) = []) as Hquiet.
    { rewrite manipulate_data_unfold, Hflag.
      by destruct (outcome (foldM manipulate_entry [] data)). }
    split; [done|].
    assert (forall d, trace (_manipulate_data py3 self d) = []) as Hall.
    { intros d. rewrite manipulate_data_unfold, Hflag.
      by destruct (outcome (foldM manipulate_entry [] d)). }
    rewrite cmus_unfold, cmus_locals_unfold.
    destruct (output_of py3 query) as [text|e].
    + specialize (Hall (_organize_data text)).
      destruct (_manipulate_data py3 self (_organize_data text))
        as [[d|e] t]; simpl in Hall; subst t.
      * destruct (l_data _); [set_solver|]. cbn zeta.
        destruct (outcome (dict_kwargs _ _)); set_solver.
      * set_solver.
    + simpl. set_solver.
Qed.

Lemma follow_query_gate_witness :
  let host := sample_host (Ok "status playing") (Ok "setting: true") in
  outcome (post_config_hook host follow_config) = Ok follow_self
  /\ trace (_manipulate_data host follow_self [("status", "playing")])
     = [CommandOutput raw_follow]
  /\ exists out,
      outcome (_manipulate_data host follow_self [("status", "playing")])
      = Ok out
      /\ dict_get "follow" out = Some (PyBool true).
Proof.
  intros host. split; [reflexivity|].
  destruct (follow_query_gate host follow_config follow_self
              [("status", "playing")]) as (_ & Hset & _); [reflexivity|].
  destruct Hset as (Hquery & _); [reflexivity|].
  destruct Hquery as (Htrace & out & Hout & Hfollow & _).
  { intros key value Hin [->| ->];
      apply list_elem_of_singleton in Hin; discriminate. }
  split; [exact Htrace|]. exists out. split; [exact Hout | exact Hfollow].
Defined.

(** With the flag set, a [duration] that is no integer literal ends the
    transformation before the follow query: no raw query is made. *)
Lemma follow_query_not_reached :
  let host := sample_host (Ok "duration x") (Ok "true") in
  outcome (post_config_hook host follow_config) = Ok follow_self
  /\ use_follow follow_self = true
  /\ _organize_data "duration x" = [("duration", "x")]
  /\ _manipulate_data host follow_self [("duration", "x")]
     = (Raise ValueError, [])
  /\ trace (cmus host follow_self) = [CommandOutput query]
  /\ CommandOutput raw_follow ∉ trace (cmus host follow_self).
Proof.
  intros host. repeat (split; [reflexivity|]).
  intros [=]%list_elem_of_singleton.
Qed.


(** * Further properties of the code *)

(** ** Time formatting on all integers *)

Lemma string_app_length (a b : string) :
  String.length (a +:+ b) = (String.length a + String.length b)%nat.
Proof. induction a as [|c a IH]; simpl; [done|by rewrite IH]. Qed.

Lemma string_app_inj_length (a1 a2 r1 r2 : string) :
  String.length r1 = String.length r2 ->
  a1 +:+ r1 = a2 +:+ r2 -> a1 = a2 /\ r1 = r2.
Proof.
  intros Hlen. revert a2. induction a1 as [|c a1 IH]; intros a2 Heq.
  - destruct a2 as [|c2 a2]; [done|].
    apply (f_equal String.length) in Heq.
    rewrite !string_app_length in Heq. simpl in Heq. lia.
  - destruct a2 as [|c2 a2].
    + apply (f_equal String.length) in Heq.
      rewrite !string_app_length in Heq. simpl in Heq. lia.
    + simpl in Heq. injection Heq as -> Heq.
      apply IH in Heq as [-> ->]. done.
Qed.

Lemma digit_char_inj (a b : Z) :
  0 <= a < 10 -> 0 <= b < 10 -> digit_char a = digit_char b -> a = b.
Proof.
  intros Ha Hb H. unfold digit_char in H.
  apply (f_equal N_of_ascii) in H.
  rewrite !N_ascii_embedding in H by lia. lia.
Qed.

Lemma two_digits_inj (a b : Z) :
  0 <= a < 60 -> 0 <= b < 60 -> two_digits a = two_digits b -> a = b.
Proof.
  intros Ha Hb H. unfold two_digits in H. injection H as H1 H2.
  apply digit_char_inj in H1, H2; try (apply Z.mod_pos_bound; lia).
  - rewrite (Z.div_mod a 10), (Z.div_mod b 10) by lia. lia.
  - split; [apply Z.div_pos; lia | apply Z.div_lt_upper_bound; lia].
  - split; [apply Z.div_pos; lia | apply Z.div_lt_upper_bound; lia].
Qed.

(** The text for hour [h], minute [m] and second [s]. *)
Lemma seconds_to_time_shape (v : Z) :
  let h := v / 60 / 60 in
  let m := v / 60 mod 60 in
  let s := v mod 60 in
  _seconds_to_time (PyInt v)
  = ret (if h =? 0 then two_digits m +:+ ":" +:+ two_digits s
         else pretty h +:+ ":" +:+ two_digits m +:+ ":" +:+ two_digits s).
Proof.
  intros h m s. subst h m s.
  unfold _seconds_to_time, py_int, bind, ret, divmod. simpl.
  rewrite !fmt_02d_two_digits by (apply Z.mod_pos_bound; lia).
  unfold fmt_d. f_equal. f_equal.
  destruct (v / 60 / 60) as [|p|p] eqn:Hh.
  - assert (exists n : nat, (n < 60)%nat /\ v / 60 mod 60 = Z.of_nat n)
      as (n & Hn & ->).
    { exists (Z.to_nat (v / 60 mod 60)).
      pose proof (Z.mod_pos_bound (v / 60) 60). lia. }
    generalize (two_digits (v mod 60)). intros ss.
    do 60 (destruct n as [|n]; [reflexivity|]). lia.
  - destruct (pretty_Z_head (Z.pos p)) as (c & r & -> & H0 & Hc); [lia|].
    simpl. apply Ascii.eqb_neq in H0, Hc. rewrite H0. simpl. by rewrite Hc.
  - reflexivity.
Qed.

Lemma pretty_Z_nonempty (h : Z) : (1 <= String.length (pretty h))%nat.
Proof.
  destruct h as [|p|p].
  - simpl. lia.
  - destruct (pretty_Z_head (Z.pos p)) as (c & r & -> & _); [lia|].
    simpl. lia.
  - unfold pretty, pretty_Z. simpl. lia.
Qed.

Lemma seconds_from_parts (a b : Z) :
  a / 60 / 60 = b / 60 / 60 -> a / 60 mod 60 = b / 60 mod 60 ->
  a mod 60 = b mod 60 -> a = b.
Proof.
  intros Hh Hm Hs.
  pose proof (Z.div_mod a 60). pose proof (Z.div_mod b 60).
  pose proof (Z.div_mod (a / 60) 60). pose proof (Z.div_mod (b / 60) 60).
  lia.
Qed.



(** X2.  Different numbers of seconds are never rendered alike. *)
Theorem seconds_to_time_injective (a b : Z) :
  a <> b -> _seconds_to_time (PyInt a) <> _seconds_to_time (PyInt b).
Proof.
  intros Hne Heq. apply Hne. clear Hne.
  rewrite !seconds_to_time_shape in Heq. cbn zeta in Heq.
  assert (0 <= a / 60 mod 60 < 60 /\ 0 <= a mod 60 < 60
          /\ 0 <= b / 60 mod 60 < 60 /\ 0 <= b mod 60 < 60)
    as (Hma & Hsa & Hmb & Hsb)
    by (repeat split; apply Z.mod_pos_bound; lia).
  injection Heq as Heq.
  destruct (Z.eqb_spec (a / 60 / 60) 0) as [Ha|Ha],
           (Z.eqb_spec (b / 60 / 60) 0) as [Hb|Hb].
  - apply string_app_inj_length in Heq as [Hm Hs]; [|done].
    apply (string_app_inj_length ":" ":") in Hs as [_ Hs]; [|done].
    apply two_digits_inj in Hm, Hs; try done.
    apply seconds_from_parts; congruence.
  - apply (f_equal String.length) in Heq.
    rewrite !string_app_length in Heq. simpl in Heq.
    pose proof (pretty_Z_nonempty (b / 60 / 60)). lia.
  - apply (f_equal String.length) in Heq.
    rewrite !string_app_length in Heq. simpl in Heq.
    pose proof (pretty_Z_nonempty (a / 60 / 60)). lia.
  - apply string_app_inj_length in Heq as [Hh Hrest]; [|done].
    apply (inj pretty) in Hh.
    apply (string_app_inj_length ":" ":") in Hrest as [_ Hrest]; [|done].
    apply string_app_inj_length in Hrest as [Hm Hs]; [|done].
    apply (string_app_inj_length ":" ":") in Hs as [_ Hs]; [|done].
    apply two_digits_inj in Hm, Hs; try done.
    by apply seconds_from_parts.
Qed.

Lemma seconds_to_time_injective_witness :
  _seconds_to_time (PyInt 59) <> _seconds_to_time (PyInt 3599).
Proof. apply seconds_to_time_injective. lia. Defined.

(** ** The fetch *)

(** X3.  The fetch makes the one query and never raises: it answers
    [(True, text)] when the command gives its output and [(False, {})]
    for any exception. *)
Theorem get_cmus_data_never_raises (py3 : Py3) :
  _get_cmus_data py3
  = (Ok match output_of py3 query with
        | Ok text => (true, Text text)
        | Raise _ => (false, Mapping [])
        end,
     [CommandOutput query]).
Proof.
  unfold _get_cmus_data, try_except, command_output, bind. fold query.
  by destruct (output_of py3 query).
Qed.

(** ** Lines *)

Lemma splitlines_other c rest :
  is_linebreak c = false ->
  splitlines (String c rest)
  = match splitlines rest with
    | [] => [String c ""]
    | l :: ls => String c l :: ls
    end.
Proof. intros H. cbn [splitlines]. by rewrite H. Qed.

Lemma splitlines_break c rest :
  is_linebreak c = true ->
  splitlines (String c rest)
  = "" :: splitlines (match rest with
                      | String c' rest' =>
                          if Ascii.eqb c "013" && Ascii.eqb c' "010"
                          then rest' else rest
                      | EmptyString => rest
                      end).
Proof.
  intros H. cbn [splitlines]. rewrite H.
  destruct (Ascii.eqb_spec c "013") as [->|Hc].
  - destruct rest as [|c' rest']; [done|].
    destruct (Ascii.eqb_spec c' "010") as [->|Hc']; [done|].
    simpl. destruct c' as [[] [] [] [] [] [] [] []]; done.
  - assert (forall r, (if (false && r)%bool then EmptyString else rest) = rest)
      by done.
    destruct rest as [|c' rest'];
      destruct c as [[] [] [] [] [] [] [] []]; done.
Qed.

Lemma splitlines_feed rest :
  splitlines (String "010" rest) = "" :: splitlines rest.
Proof. rewrite splitlines_break by done. by destruct rest. Qed.

Lemma splitlines_no_linebreak s line :
  line ∈ splitlines s -> no_linebreak line = true.
Proof.
  revert line. induction s as [|c rest IH]; intros line Hin.
  - by apply elem_of_nil in Hin.
  - destruct (is_linebreak c) eqn:Hc.
    + rewrite splitlines_break in Hin by done.
      apply elem_of_cons in Hin as [->|Hin]; [done|].
      destruct rest as [|c' rest']; [by apply elem_of_nil in Hin|].
      destruct (Ascii.eqb c "013" && Ascii.eqb c' "010") eqn:Hcc; [|by apply IH].
      apply andb_true_iff in Hcc as [_ ->%Ascii.eqb_eq].
      apply IH. rewrite splitlines_feed. set_solver.
    + rewrite splitlines_other in Hin by done.
      destruct (splitlines rest) as [|l ls] eqn:Hrest.
      * apply list_elem_of_singleton in Hin as ->. simpl. by rewrite Hc.
      * apply elem_of_cons in Hin as [->|Hin].
        -- simpl. rewrite Hc. simpl. apply IH. set_solver.
        -- apply IH. set_solver.
Qed.

Lemma no_linebreak_app a b :
  no_linebreak (a +:+ b) = no_linebreak a && no_linebreak b.
Proof.
  induction a as [|c a IH]; simpl; [done|]. by rewrite IH, andb_assoc.
Qed.

Lemma splitlines_line line s :
  no_linebreak line = true ->
  splitlines (line +:+ nl +:+ s) = line :: splitlines s.
Proof.
  induction line as [|c line IH]; intros Hline.
  - apply splitlines_feed.
  - simpl in Hline. apply andb_true_iff in Hline as [Hc Hline].
    apply negb_true_iff in Hc.
    change (String c line +:+ nl +:+ s) with (String c (line +:+ nl +:+ s)).
    rewrite splitlines_other by done. by rewrite IH.
Qed.

Lemma partition_no_linebreak sep s :
  no_linebreak s = true ->
  no_linebreak (partition sep s).1.1 = true
  /\ no_linebreak (partition sep s).2 = true.
Proof.
  induction s as [|c s IH]; simpl; [done|].
  intros [Hc Hs]%andb_true_iff. destruct (Ascii.eqb c sep); [done|].
  destruct (IH Hs) as [Ha Hb].
  destruct (partition sep s) as [[a m] b]. simpl in *. by rewrite Hc, Ha.
Qed.

Lemma partition_head_no_sep sep s : has_char sep (partition sep s).1.1 = false.
Proof.
  induction s as [|c s IH]; simpl; [done|].
  destruct (Ascii.eqb c sep) eqn:Hc; [done|].
  destruct (partition sep s) as [[a m] b]. simpl in *. by rewrite Hc, IH.
Qed.

Lemma line_entry_tokens line :
  no_linebreak line = true ->
  has_char " " (line_entry line).1 = false
  /\ no_linebreak (line_entry line).1 = true
  /\ no_linebreak (line_entry line).2 = true.
Proof.
  intros Hline. unfold line_entry.
  pose proof (partition_head_no_sep " " line) as Hsp.
  destruct (partition_no_linebreak " " line Hline) as [Hc Hr].
  destruct (partition " " line) as [[category m] remainder]. simpl in *.
  destruct (_ || _); [|done].
  pose proof (partition_head_no_sep " " remainder) as Hsp'.
  destruct (partition_no_linebreak " " remainder Hr) as [Hk Hv].
  by destruct (partition " " remainder) as [[key m'] value].
Qed.

Lemma store_all_elem {V} (entries : list (string * V)) (d : dict V) k v :
  dict_get k (store_all entries d) = Some v ->
  (k, v) ∈ entries \/ dict_get k d = Some v.
Proof.
  revert d. induction entries as [|[k0 v0] es IH]; intros d Hget.
  - by right.
  - apply IH in Hget as [Hin|Hget]; [left; set_solver|].
    simpl in Hget. destruct (decide (k0 = k)) as [->|Hne].
    + rewrite dict_get_set_eq in Hget. injection Hget as ->. left. set_solver.
    + rewrite dict_get_set_ne in Hget by done. by right.
Qed.

(** ** The parser *)

(** X4.  Whatever the text, a key of the parsed mapping is one token,
    without a space, and neither a key nor a value holds a character
    that ends a line. *)
Theorem organize_data_tokens (data key value : string) :
  dict_get key (_organize_data data) = Some value ->
  has_char " " key = false
  /\ no_linebreak key = true
  /\ no_linebreak value = true.
Proof.
  rewrite organize_data_store_all. intros [Hin|Hget]%store_all_elem; [|done].
  apply list_elem_of_fmap in Hin as (line & Hle & Hline).
  apply splitlines_no_linebreak in Hline.
  pose proof (line_entry_tokens line Hline) as H. by rewrite <- Hle in H.
Qed.

Lemma organize_data_tokens_witness :
  let data := "tag title Big War" +:+ nl +:+ "file /a b/c" +:+ nl in
  dict_get "title" (_organize_data data) = Some "Big War"
  /\ has_char " " "title" = false
  /\ no_linebreak "Big War" = true.
Proof.
  intros data. split; [reflexivity|].
  destruct (organize_data_tokens data "title" "Big War") as (H1 & _ & H3);
    [reflexivity|].
  split; [exact H1 | exact H3].
Defined.

Lemma dict_set_fresh {V} (k : string) (v : V) (d : dict V) :
  k ∉ dict_keys d -> dict_set k v d = d ++ [(k, v)].
Proof.
  unfold dict_keys. induction d as [|[k0 v0] d IH]; intros Hk; simpl; [done|].
  destruct (String.eqb_spec k k0) as [->|Hne]; [set_solver|].
  rewrite IH; [done|set_solver].
Qed.

Lemma store_all_fresh {V} (entries : list (string * V)) (d : dict V) :
  NoDup entries.*1 ->
  (forall k, k ∈ entries.*1 -> k ∉ dict_keys d) ->
  store_all entries d = d ++ entries.
Proof.
  revert d. induction entries as [|[k v] es IH]; intros d Hnd Hfresh; simpl.
  - by rewrite app_nil_r.
  - apply NoDup_cons in Hnd as [Hk Hnd].
    rewrite dict_set_fresh by (apply Hfresh; set_solver).
    rewrite IH; [by rewrite <- app_assoc|done|].
    intros k' Hk'. unfold dict_keys. rewrite fmap_app.
    intros [Hin|Hin]%elem_of_app.
    + apply (Hfresh k'); [set_solver|done].
    + apply list_elem_of_singleton in Hin. simpl in Hin. by subst k'.
Qed.

Lemma encode_line_no_linebreak e :
  well_formed e -> no_linebreak (encode_line e) = true.
Proof.
  destruct e as [[kind key] value]. intros (_ & Hk & Hv & _).
  destruct kind; simpl; rewrite !no_linebreak_app, Hk, Hv; done.
Qed.

Lemma splitlines_encode es :
  Forall well_formed es -> splitlines (encode es) = encode_line <$> es.
Proof.
  induction 1 as [|e es He Hes IH]; [done|].
  cbn [encode foldr fmap list_fmap]. fold (encode es).
  rewrite splitlines_line by (by apply encode_line_no_linebreak).
  by rewrite IH.
Qed.

Lemma line_entry_encode kind key value :
  well_formed (kind, key, value) ->
  line_entry (encode_line (kind, key, value)) = (key, value).
Proof.
  intros (Hsp & _ & _ & Hbare). unfold line_entry.
  destruct kind; cbn [encode_line].
  - change (key +:+ " " +:+ value) with (key +:+ String " " value).
    rewrite (partition_found " " key value Hsp).
    destruct (Hbare eq_refl) as [H1%String.eqb_neq H2%String.eqb_neq].
    by rewrite H1, H2.
  - change ("set " +:+ key +:+ " " +:+ value)
      with ("set" +:+ String " " (key +:+ String " " value)).
    rewrite (partition_found " " "set") by done.
    change (String.eqb "set" "set" || String.eqb "set" "tag") with true.
    by rewrite (partition_found " " key value Hsp).
  - change ("tag " +:+ key +:+ " " +:+ value)
      with ("tag" +:+ String " " (key +:+ String " " value)).
    rewrite (partition_found " " "tag") by done.
    change (String.eqb "tag" "set" || String.eqb "tag" "tag") with true.
    by rewrite (partition_found " " key value Hsp).
Qed.

(** X5.  Parsing a report gives back its entries: when every key is one
    token, nothing spans lines, no category is [set] or [tag] and no key
    occurs twice, the mapping parsed from the lines holds exactly the
    entries, in their order. *)
Theorem organize_data_encode (es : list (line_kind * string * string)) :
  Forall well_formed es ->
  NoDup ((fun e => e.1.2) <$> es) ->
  _organize_data (encode es) = (fun e => (e.1.2, e.2)) <$> es.
Proof.
  intros Hwf Hnd.
  rewrite organize_data_store_all, splitlines_encode by done.
  assert (line_entry <$> (encode_line <$> es)
          = (fun e => (e.1.2, e.2)) <$> es) as ->.
  { clear Hnd. induction Hwf as [|[[kind key] value] es He Hes IH]; [done|].
    cbn [fmap list_fmap] in *. rewrite line_entry_encode by done.
    by rewrite IH. }
  rewrite store_all_fresh; [done| |].
  - by rewrite <- list_fmap_compose.
  - intros k _. apply not_elem_of_nil.
Qed.

Lemma organize_data_encode_witness :
  _organize_data ("status playing" +:+ nl +:+ "tag artist Music For" +:+ nl
                  +:+ "set shuffle true" +:+ nl)
  = [("status", "playing"); ("artist", "Music For"); ("shuffle", "true")].
Proof.
  apply (organize_data_encode
           [(Bare, "status", "playing"); (TagLine, "artist", "Music For");
            (SetLine, "shuffle", "true")]).
  - repeat constructor; discriminate.
  - apply NoDup_ListNoDup. repeat constructor; simpl; intuition discriminate.
Defined.

(** ** The keys of the transformed mapping *)

Lemma manipulate_entry_keys temporary key value t' :
  manipulate_entry temporary (key, value) = ret t' ->
  (forall k, k ∈ dict_keys t' <->
             k ∈ dict_keys temporary \/ k = key \/ derives key k)
  /\ (NoDup (dict_keys temporary) -> NoDup (dict_keys t')).
Proof.
  intros Hstep. destruct (decide (is_time_key key)) as [Hk|Hk].
  - rewrite manipulate_entry_time in Hstep by done.
    destruct (int_of_str value) as [n|]; [|done].
    destruct (seconds_to_time_int n) as [t Ht]. rewrite Ht, bind_ret_l in Hstep.
    injection Hstep as <-. split.
    + intros k. rewrite !dict_keys_set. unfold derives. tauto.
    + intros Hnd. by do 2 apply dict_keys_set_NoDup.
  - rewrite manipulate_entry_plain in Hstep by done. injection Hstep as <-.
    split.
    + intros k. rewrite dict_keys_set. unfold derives. tauto.
    + intros Hnd. by apply dict_keys_set_NoDup.
Qed.

Lemma foldM_manipulate_keys temporary items out :
  outcome (foldM manipulate_entry temporary items) = Ok out ->
  (forall k, k ∈ dict_keys out <->
             k ∈ dict_keys temporary \/ k ∈ items.*1
             \/ exists key, key ∈ items.*1 /\ derives key k)
  /\ (NoDup (dict_keys temporary) -> NoDup (dict_keys out)).
Proof.
  revert temporary. induction items as [|[key value] items IH];
    intros t Hout.
  - injection Hout as <-. split; [|done]. intros k. split; [by left|].
    intros [H|[H|(key & H & _)]]; [done| |]; by apply elem_of_nil in H.
  - apply foldM_manipulate_cons in Hout as (t' & Hstep & Hout).
    destruct (manipulate_entry_keys _ _ _ _ Hstep) as [Hkeys Hnd].
    destruct (IH t' Hout) as [Hkeys' Hnd']. split; [|by auto].
    intros k. rewrite Hkeys', Hkeys. cbn [fmap list_fmap fst]. split.
    + intros [[H|[->|H]]|[H|(key' & H & Hd)]].
      * by left.
      * right. left. set_solver.
      * right. right. exists key. split; [set_solver|done].
      * right. left. set_solver.
      * right. right. exists key'. split; [set_solver|done].
    + intros [H|[H|(key' & H & Hd)]].
      * by do 2 left.
      * apply elem_of_cons in H as [->|H]; [left; right; by left|].
        right. by left.
      * apply elem_of_cons in H as [->|H]; [left; right; by right|].
        right. right. by exists key'.
Qed.

Lemma manipulate_data_key_set (py3 : Py3) (self : Py3status)
        (data : dict string) (out : dict pyval) :
  outcome (_manipulate_data py3 self data) = Ok out ->
  NoDup (dict_keys out)
  /\ forall k,
      k ∈ dict_keys out <->
      k ∈ dict_keys data
      \/ (exists key, key ∈ dict_keys data /\ is_time_key key
                      /\ k = key +:+ "time")
      \/ (use_follow self = true /\ k = "follow").
Proof.
  rewrite manipulate_data_unfold.
  destruct (outcome (foldM manipulate_entry [] data)) as [t0|e] eqn:Hloop;
    [|done].
  destruct (foldM_manipulate_keys _ _ _ Hloop) as [Hkeys Hnd].
  specialize (Hnd (NoDup_nil_2 (A:=string))). cbn zeta.
  set (t1 := if dict_mem "stream" data
             then dict_set "stream" (PyBool true) t0 else t0).
  assert (NoDup (dict_keys t1)
          /\ forall k, k ∈ dict_keys t1 <->
               k ∈ dict_keys data
               \/ exists key, key ∈ dict_keys data /\ is_time_key key
                              /\ k = key +:+ "time") as [Hnd1 Hkeys1].
  { assert (forall k, k ∈ dict_keys t0 <->
               k ∈ dict_keys data
               \/ exists key, key ∈ dict_keys data /\ is_time_key key
                              /\ k = key +:+ "time") as H0.
    { intros k. rewrite Hkeys. unfold derives, dict_keys. split.
      - intros [H|[H|(key & H & Hd)]]; [by apply elem_of_nil in H|by left|].
        right. exists key. tauto.
      - intros [H|(key & H & Hd)]; [right; by left|].
        right. right. exists key. tauto. }
    subst t1. destruct (dict_mem "stream" data) eqn:Hs; [|done].
    split; [by apply dict_keys_set_NoDup|].
    intros k. rewrite dict_keys_set, H0. apply dict_mem_key in Hs.
    split; [intros [->|H]; [by left|done]|tauto]. }
  destruct (use_follow self).
  - destruct (output_of py3 raw_follow) as [resp|e]; [|done].
    intros [= <-]. split; [by apply dict_keys_set_NoDup|].
    intros k. rewrite dict_keys_set, Hkeys1. tauto.
  - intros [= <-]. split; [done|]. intros k. rewrite Hkeys1.
    split; [tauto|]. intros [H|[H|[[=] _]]]; tauto.
Qed.

(** X6.  The transformed mapping has no key twice, and its keys are
    those of the input, [durationtime] and [positiontime] for the time
    keys present, and [follow] when the flag is set: nothing is dropped
    and nothing else is added. *)
Theorem manipulate_data_keys (py3 : Py3) (self : Py3status)
        (data : dict string) (out : dict pyval) :
  outcome (_manipulate_data py3 self data) = Ok out ->
  NoDup (dict_keys out)
  /\ forall k,
      k ∈ dict_keys out <->
      k ∈ dict_keys data
      \/ (exists key, key ∈ dict_keys data /\ is_time_key key
                      /\ k = key +:+ "time")
      \/ (use_follow self = true /\ k = "follow").
Proof. apply manipulate_data_key_set. Qed.

Lemma manipulate_data_keys_witness :
  let host := sample_host (Raise CommandError) (Ok "true") in
  let data := [("duration", "171"); ("stream", "http://radio")] in
  exists out,
    outcome (_manipulate_data host follow_self data) = Ok out
    /\ NoDup (dict_keys out)
    /\ "durationtime" ∈ dict_keys out /\ "follow" ∈ dict_keys out
    /\ "position" ∉ dict_keys out.
Proof.
  intros host data. eexists. split; [reflexivity|].
  edestruct (manipulate_data_keys host follow_self data) as [Hnd Hk];
    [reflexivity|].
  split; [exact Hnd|]. split; [|split].
  - apply Hk. right. left. exists "duration". split; [|split].
    + apply list_elem_of_In. simpl. tauto.
    + by left.
    + reflexivity.
  - apply Hk. right. right. split; reflexivity.
  - intros [H|[(key & H & _ & Heq)|[_ [=]]]]%Hk.
    + apply list_elem_of_In in H. simpl in H. intuition discriminate.
    + apply list_elem_of_In in H. simpl in H.
      destruct H as [<-|[<-|[]]]; discriminate.
Defined.

(** ** How a poll fails *)

Lemma foldM_manipulate_raise temporary items e :
  outcome (foldM manipulate_entry temporary items) = Raise e ->
  e = ValueError
  /\ exists key value, (key, value) ∈ items /\ is_time_key key
                       /\ int_of_str value = None.
Proof.
  revert temporary. induction items as [|[key0 value0] items IH];
    intros t Hraise; [done|].
  cbn [foldM] in Hraise.
  destruct (manipulate_entry_outcome t key0 value0)
    as [(Hk & Hv & Hstep)|[t' Hstep]]; rewrite Hstep in Hraise.
  - injection Hraise as <-. split; [done|].
    exists key0, value0. split; [set_solver|done].
  - rewrite bind_ret_l in Hraise.
    apply IH in Hraise as (-> & key & value & Hin & Hk & Hv).
    split; [done|]. exists key, value. split; [set_solver|done].
Qed.

(** X7.  A [duration] or [position] that is no integer literal makes the
    poll raise [ValueError] right after the query: nothing is rendered
    and the failure is not folded into the not-started state. *)
Theorem poll_value_error (py3 : Py3) (self : Py3status)
        (text key value : string) :
  output_of py3 query = Ok text ->
  dict_get key (_organize_data text) = Some value ->
  is_time_key key ->
  int_of_str value = None ->
  cmus py3 self = (Raise ValueError, [CommandOutput query]).
Proof.
  intros Hq Hget Hk Hv.
  rewrite cmus_unfold, cmus_locals_unfold, Hq, manipulate_data_unfold.
  apply dict_get_Some_elem in Hget.
  by rewrite (foldM_manipulate_bad [] _ key value Hget Hk Hv).
Qed.

Lemma poll_value_error_witness :
  let value := "171" +:+ String "031" "" in
  let text := "status playing" +:+ nl +:+ "duration " +:+ value in
  cmus (sample_host (Ok text) (Raise CommandError)) default_self
  = (Raise ValueError, [CommandOutput query]).
Proof.
  intros value text.
  apply (poll_value_error _ _ text "duration" value).
  - reflexivity.
  - reflexivity.
  - by left.
  - reflexivity.
Defined.

(** X8.  Unlike a failure of the query, a failure of the follow query
    is not caught: with the flag set and the snapshot built, the
    exception of the raw command leaves the poll, after the two calls. *)
Theorem follow_failure_propagates (py3 : Py3) (self : Py3status)
        (text : string) (e : exn) :
  use_follow self = true ->
  output_of py3 query = Ok text ->
  times_parse (_organize_data text) ->
  output_of py3 raw_follow = Raise e ->
  cmus py3 self
  = (Raise e, [CommandOutput query; CommandOutput raw_follow]).
Proof.
  intros Hflag Hq Hparse Hraw.
  rewrite cmus_unfold, cmus_locals_unfold, Hq, manipulate_data_unfold.
  destruct (foldM_manipulate_returns [] _ Hparse) as [t0 ->].
  cbn [outcome ret fst]. cbn zeta. by rewrite Hflag, Hraw.
Qed.

Lemma follow_failure_propagates_witness :
  cmus (sample_host (Ok "status playing") (Raise CommandError)) follow_self
  = (Raise CommandError, [CommandOutput query; CommandOutput raw_follow]).
Proof.
  apply (follow_failure_propagates _ _ "status playing").
  - reflexivity.
  - reflexivity.
  - intros key value Hin [->| ->];
      apply list_elem_of_singleton in Hin; discriminate.
  - reflexivity.
Defined.

Lemma dict_kwargs_raise kw data e :
  NoDup (dict_keys data) ->
  outcome (dict_kwargs kw data) = Raise e ->
  exists k, e = DuplicateKeyword k /\ k ∈ dict_keys kw /\ k ∈ dict_keys data.
Proof.
  revert kw. induction data as [|[k0 v0] data IH]; intros kw Hnd Hraise;
    [done|].
  simpl in Hraise. unfold dict_keys in Hnd. simpl in Hnd.
  apply NoDup_cons in Hnd as [Hk0 Hnd].
  destruct (dict_mem k0 kw) eqn:Hmem.
  - injection Hraise as <-. exists k0. split; [done|].
    split; [by apply dict_mem_key|]. unfold dict_keys. set_solver.
  - apply IH in Hraise as (k & -> & Hkw & Hd); [|done].
    exists k. split; [done|]. unfold dict_keys in *.
    rewrite fmap_app in Hkw. apply elem_of_app in Hkw as [Hkw|Hkw].
    + split; [done|set_solver].
    + apply list_elem_of_singleton in Hkw. simpl in Hkw. by subst k.
Qed.

(** X9.  A poll can fail in three ways only: [ValueError], for a time
    key of the snapshot that is no integer literal; the exception of the
    follow query, when the flag is set; or the collision of a snapshot
    key with one of the four control placeholders. *)
Theorem poll_errors (py3 : Py3) (self : Py3status) (e : exn) :
  outcome (cmus py3 self) = Raise e ->
  (e = ValueError
   /\ exists text key value,
       output_of py3 query = Ok text
       /\ (key, value) ∈ _organize_data text
       /\ is_time_key key /\ int_of_str value = None)
  \/ (use_follow self = true /\ output_of py3 raw_follow = Raise e)
  \/ (exists k, e = DuplicateKeyword k /\ k ∈ control_keys).
Proof.
  rewrite cmus_unfold, cmus_locals_unfold.
  destruct (output_of py3 query) as [text|e0] eqn:Hq.
  - destruct (_manipulate_data py3 self (_organize_data text))
      as [[d|e1] t] eqn:Hm.
    + pose proof (manipulate_data_key_set py3 self (_organize_data text) d)
        as [Hnd _]; [by rewrite Hm|].
      destruct (started_locals_cases py3 self d) as (_ & _ & -> & _).
      cbn zeta.
      destruct (outcome (dict_kwargs _ d)) as [params|e1] eqn:Hkw; [done|].
      intros [= ->]. right. right.
      apply dict_kwargs_raise in Hkw as (k & -> & Hk & _); [|done].
      by exists k.
    + intros [= ->]. revert Hm. rewrite manipulate_data_unfold.
      destruct (outcome (foldM manipulate_entry [] (_organize_data text)))
        as [t0|e1] eqn:Hloop.
      * cbn zeta. destruct (use_follow self); [|done].
        destruct (output_of py3 raw_follow) as [resp|e1]; [done|].
        intros [= -> _]. right. by left.
      * intros [= -> _].
        apply foldM_manipulate_raise in Hloop as (-> & key & value & H).
        left. split; [done|]. by exists text, key, value.
  - done.
Qed.

Lemma poll_errors_witness :
  let host := sample_host (Ok "set is_started true") (Raise CommandError) in
  outcome (cmus host default_self) = Raise (DuplicateKeyword "is_started")
  /\ "is_started" ∈ control_keys.
Proof.
  intros host. split; [reflexivity|].
  destruct (poll_errors host default_self (DuplicateKeyword "is_started"))
    as [[[=] _]|[[[=] _]|(k & [= <-] & Hk)]]; [reflexivity|].
  exact Hk.
Defined.

(** ** What a poll calls and binds *)

Lemma manipulate_data_trace py3 self data :
  trace (_manipulate_data py3 self data) = []
  \/ (use_follow self = true
      /\ trace (_manipulate_data py3 self data) = [CommandOutput raw_follow]).
Proof.
  rewrite manipulate_data_unfold.
  destruct (outcome (foldM manipulate_entry [] data)); [|by left].
  cbn zeta. destruct (use_follow self); [|by left].
  right. by destruct (output_of py3 raw_follow).
Qed.

(** X10.  A poll calls the host in a fixed order: the query first, then
    the follow query at most once and only with the flag set, then
    [time_in] and last [safe_format] with the module's template; it
    never runs a command, checks one or prevents a refresh. *)
Theorem poll_host_calls (py3 : Py3) (self : Py3status) :
  exists follow tail,
    trace (cmus py3 self) = CommandOutput query :: follow ++ tail
    /\ (follow = []
        \/ (use_follow self = true /\ follow = [CommandOutput raw_follow]))
    /\ (tail = []
        \/ exists seconds,
            tail = [TimeIn seconds]
            \/ exists params,
                tail = [TimeIn seconds; SafeFormat (format self) params]).
Proof.
  rewrite cmus_unfold, cmus_locals_unfold.
  destruct (output_of py3 query) as [text|e].
  - destruct (manipulate_data_trace py3 self (_organize_data text))
      as [Ht|[Hflag Ht]];
      destruct (_manipulate_data py3 self (_organize_data text))
        as [[d|e] t]; simpl in Ht; subst t.
    + destruct (started_locals_cases py3 self d) as (_ & _ & -> & _).
      cbn zeta. exists []. destruct (outcome (dict_kwargs _ d)).
      * eexists. split; [reflexivity|]. split; [by left|].
        right. eexists. right. by eexists.
      * eexists. split; [reflexivity|]. split; [by left|].
        right. eexists. by left.
    + exists [], []. split; [done|]. split; by left.
    + destruct (started_locals_cases py3 self d) as (_ & _ & -> & _).
      cbn zeta. exists [CommandOutput raw_follow].
      destruct (outcome (dict_kwargs _ d)).
      * eexists. split; [reflexivity|]. split; [by right|].
        right. eexists. right. by eexists.
      * eexists. split; [reflexivity|]. split; [by right|].
        right. eexists. by left.
    + exists [CommandOutput raw_follow], []. split; [done|].
      split; [by right|by left].
  - exists []. eexists. split; [reflexivity|]. split; [by left|].
    right. eexists. right. by eexists.
Qed.

(** X11.  The expiry of a render depends on the query alone: it is the
    cache timeout from now whenever the query answered, whatever the
    status, and the sleep timeout from now when it failed. *)
Theorem poll_expiry (py3 : Py3) (self : Py3status) (r : response) :
  outcome (cmus py3 self) = Ok r ->
  cached_until r
  = clock_in py3 match output_of py3 query with
                 | Ok _ => cache_timeout self
                 | Raise _ => sleep_timeout self
                 end.
Proof.
  intros (l & d & Hl & _ & _ & -> & _)%cmus_returns. cbn [cached_until].
  revert Hl. rewrite cmus_locals_unfold.
  destruct (output_of py3 query) as [text|e].
  - destruct (_manipulate_data _ _ _) as [[d'|e] t]; [|done].
    intros [= <-].
    by destruct (started_locals_cases py3 self d') as (_ & -> & _).
  - by intros [= <-].
Qed.

Lemma poll_expiry_witness :
  let host := sample_host (Ok "status stopped") (Raise CommandError) in
  exists r, outcome (cmus host default_self) = Ok r /\ cached_until r = 1005.
Proof.
  intros host. eexists. split; [reflexivity|].
  apply (poll_expiry host default_self). reflexivity.
Defined.

Lemma organize_data_NoDup data : NoDup (dict_keys (_organize_data data)).
Proof.
  rewrite organize_data_store_all. apply store_all_NoDup. constructor.
Qed.

Lemma manipulate_data_plain py3 self data out key value :
  NoDup (dict_keys data) ->
  outcome (_manipulate_data py3 self data) = Ok out ->
  dict_get key data = Some value ->
  key <> "stream" -> ~ is_time_key key ->
  (key = "follow" -> use_follow self = false) ->
  (forall key', is_time_key key' -> key = key' +:+ "time" ->
                dict_get key' data = None) ->
  dict_get key out = Some (normalise value).
Proof.
  intros Hnd (t0 & Hloop & _ & Hother)%manipulate_data_lookup
         Hget Hs Hk Hf Hder.
  rewrite Hother by done.
  rewrite (foldM_manipulate_key _ _ _ _ _ Hloop Hnd
             (dict_get_Some_elem _ _ _ Hget)).
  { by rewrite decide_False. }
  intros key' Hin' [Hk' ->].
  specialize (Hder key' Hk' eq_refl). by apply dict_get_None_key in Hder.
Qed.

Lemma normalise_plain (value s : string) :
  normalise s = PyStr s -> normalise value = PyStr s <-> value = s.
Proof.
  intros Hs. split; [|by intros ->]. unfold normalise.
  repeat destruct (decide _); try discriminate. by intros [= ->].
Qed.

(** The [status] the colour is chosen by is the one the text gives. *)
Lemma transformed_status py3 self text d :
  outcome (_manipulate_data py3 self (_organize_data text)) = Ok d ->
  dict_get_default "status" d
  = match dict_get "status" (_organize_data text) with
    | Some value => normalise value
    | None => PyNone
    end.
Proof.
  intros Hout. unfold dict_get_default.
  destruct (dict_get "status" (_organize_data text)) as [value|] eqn:Hget.
  - rewrite (manipulate_data_plain _ _ _ _ _ _ (organize_data_NoDup text)
               Hout Hget); try done.
    + by intros [H|H].
    + by intros key' [->| ->].
  - destruct (manipulate_data_key_set _ _ _ _ Hout) as [_ Hkeys].
    destruct (dict_get "status" d) as [v|] eqn:Hd; [|done].
    apply dict_get_Some_key, Hkeys in Hd
      as [Hd|[(key & _ & [->| ->] & [=])|[_ [=]]]].
    by apply dict_get_None_key in Hget.
Qed.

(** X12.  Across parsing and transformation the flags follow the text:
    [is_playing], [is_paused] or [is_stopped] is set exactly when the
    last line for the key [status] gives [playing], [paused] or
    [stopped]. *)
Theorem poll_status_flags (py3 : Py3) (self : Py3status)
        (text : string) (l : locals) :
  output_of py3 query = Ok text ->
  outcome (cmus_locals py3 self) = Ok l ->
  let status := dict_get "status" (_organize_data text) in
  (is_playing l = PyBool true <-> status = Some "playing")
  /\ (is_paused l = PyBool true <-> status = Some "paused")
  /\ (is_stopped l = PyBool true <-> status = Some "stopped").
Proof.
  intros Hq. rewrite cmus_locals_unfold, Hq.
  destruct (_manipulate_data py3 self (_organize_data text))
    as [[d|e] t] eqn:Hm; [|done].
  intros [= <-]. cbn zeta.
  assert (outcome (_manipulate_data py3 self (_organize_data text)) = Ok d)
    as Hout by (by rewrite Hm).
  pose proof (transformed_status _ _ _ _ Hout) as Hst.
  assert (forall s, normalise s = PyStr s ->
            dict_get_default "status" d = PyStr s <->
            dict_get "status" (_organize_data text) = Some s) as Hiff.
  { intros s Hs. rewrite Hst.
    destruct (dict_get "status" (_organize_data text)) as [value|].
    - rewrite (normalise_plain value s Hs). split; congruence.
    - split; discriminate. }
  pose proof (Hiff "playing" eq_refl) as Hplaying.
  pose proof (Hiff "paused" eq_refl) as Hpaused.
  pose proof (Hiff "stopped" eq_refl) as Hstopped.
  destruct (started_locals_cases py3 self d) as (_ & _ & _ & Hcases).
  destruct Hcases as [(Hs & -> & -> & -> & _)|[(Hs & -> & -> & -> & _)|
                      [(Hs & -> & -> & -> & _)|
                       (N1 & N2 & N3 & -> & -> & -> & _)]]].
  - apply Hplaying in Hs. rewrite Hs. repeat split; done.
  - apply Hpaused in Hs. rewrite Hs. repeat split; done.
  - apply Hstopped in Hs. rewrite Hs. repeat split; done.
  - repeat split; try done; intros H.
    + by apply Hplaying in H.
    + by apply Hpaused in H.
    + by apply Hstopped in H.
Qed.

Lemma poll_status_flags_witness :
  let text := "status stopped" +:+ nl +:+ "status paused" in
  let host := sample_host (Ok text) (Raise CommandError) in
  exists l,
    outcome (cmus_locals host default_self) = Ok l
    /\ dict_get "status" (_organize_data text) = Some "paused"
    /\ is_paused l = PyBool true.
Proof.
  intros text host. eexists. split; [reflexivity|]. split; [reflexivity|].
  eapply (poll_status_flags host default_self text); reflexivity.
Defined.

Lemma dict_get_app {V} (k : string) (a b : dict V) :
  dict_get k a = None -> dict_get k (a ++ b) = dict_get k b.
Proof.
  induction a as [|[k0 v0] a IH]; simpl; [done|].
  by destruct (String.eqb k k0).
Qed.

(** X13.  A field of the text reaches the renderer: whenever a poll
    renders, a key of the parsed text other than [stream], the time keys
    and what they derive, and [follow] under the flag, is bound in the
    request to its value, as a boolean for the four tokens and as the
    string itself otherwise. *)
Theorem poll_binds_fields (py3 : Py3) (self : Py3status) (r : response)
        (text key value : string) :
  output_of py3 query = Ok text ->
  outcome (cmus py3 self) = Ok r ->
  dict_get key (_organize_data text) = Some value ->
  key <> "stream" -> ~ is_time_key key ->
  (key = "follow" -> use_follow self = false) ->
  (forall key', is_time_key key' -> key = key' +:+ "time" ->
                dict_get key' (_organize_data text) = None) ->
  exists params,
    last (trace (cmus py3 self)) = Some (SafeFormat (format self) params)
    /\ full_text r = render py3 (format self) params
    /\ dict_get key params = Some (normalise value).
Proof.
  intros Hq (l & d & Hl & Hd & Hfresh & -> & Ht)%cmus_returns
         Hget Hs Hk Hf Hder.
  eexists. split; [by rewrite Ht, last_app|]. split; [done|].
  revert Hl Hd. rewrite cmus_locals_unfold, Hq.
  destruct (_manipulate_data py3 self (_organize_data text))
    as [[d'|e] t] eqn:Hm; [|done].
  intros [= <-] Hd.
  destruct (started_locals_cases py3 self d') as (_ & _ & Hd' & _).
  rewrite Hd' in Hd. injection Hd as ->.
  assert (dict_get key d = Some (normalise value)) as Hkey.
  { apply (manipulate_data_plain py3 self (_organize_data text)); try done.
    - apply organize_data_NoDup.
    - by rewrite Hm. }
  rewrite dict_get_app; [done|].
  unfold control_placeholders. cbn [dict_get].
  repeat match goal with
         | |- context [String.eqb key ?k] =>
             destruct (String.eqb_spec key k) as [->|_];
             [rewrite Hfresh in Hkey; [done|];
              apply list_elem_of_In; simpl; tauto|]
         end.
  done.
Qed.

Lemma poll_binds_fields_witness :
  let text := "status playing" +:+ nl +:+ "set artist Foo" +:+ nl
              +:+ "set title Bar" +:+ nl +:+ "set shuffle true" +:+ nl in
  let host := sample_host (Ok text) (Raise CommandError) in
  let r := {| cached_until := 1005; color := PyStr "#0000FF";
              full_text := format defaults |} in
  outcome (cmus host default_self) = Ok r
  /\ exists params,
      last (trace (cmus host default_self))
      = Some (SafeFormat (format defaults) params)
      /\ dict_get "shuffle" params = Some (PyBool true).
Proof.
  intros text host r. split; [reflexivity|].
  destruct (poll_binds_fields host default_self r text "shuffle" "true")
    as (params & Hlast & _ & Hkey);
    [reflexivity | reflexivity | reflexivity | done | by intros [H|H]
    | done | by intros key' [->| ->] |].
  exists params. split; [exact Hlast | exact Hkey].
Defined.

(** ** Clicks *)

Lemma run_unfold py3 cmd :
  (_ <- command_run py3 cmd ;; ret tt)
  = (match exit_code_of py3 cmd with Ok _ => Ok tt | Raise e => Raise e end,
     [CommandRun cmd]).
Proof. unfold command_run, bind. by destruct (exit_code_of py3 cmd). Qed.

Lemma on_click_unfold py3 self event :
  on_click py3 self event
  = match dict_get "button" event with
    | None => (Raise (KeyError "button"), [])
    | Some button =>
        match first_match button (bindings self) with
        | None => (Ok tt, [PreventRefresh])
        | Some cmd =>
            (match exit_code_of py3 cmd with
             | Ok _ => Ok tt
             | Raise e => Raise e
             end, [CommandRun cmd])
        end
    end.
Proof.
  unfold on_click. destruct (dict_get "button" event) as [button|]; [|done].
  rewrite bind_ret_l. unfold bindings. cbn [first_match].
  repeat (destruct (pyval_eqb button _); [apply run_unfold|]).
  reflexivity.
Qed.

(** X14.  What a click returns: an event without [button] raises
    [KeyError] before any host call; a click that matches a binding
    returns normally whatever the exit code of its command, and raises
    only what running the command raises; a click that matches none
    returns normally. *)
Theorem on_click_outcome (py3 : Py3) (self : Py3status) (event : dict pyval) :
  on_click py3 self event
  = match dict_get "button" event with
    | None => (Raise (KeyError "button"), [])
    | Some button =>
        match first_match button (bindings self) with
        | None => (Ok tt, [PreventRefresh])
        | Some cmd =>
            (match exit_code_of py3 cmd with
             | Ok _ => Ok tt
             | Raise e => Raise e
             end, [CommandRun cmd])
        end
    end.
Proof. apply on_click_unfold. Qed.

Lemma first_match_unbound (n : Z) (table : list (pyval * string)) :
  (forall b cmd, (b, cmd) ∈ table ->
                 b = PyNone \/ exists m, b = PyInt m /\ m <> n) ->
  first_match (PyInt n) table = None.
Proof.
  induction table as [|[b cmd] table IH]; intros Hall; [done|].
  cbn [first_match].
  destruct (Hall b cmd) as [->|(m & -> & Hm)]; [set_solver| |].
  - simpl. apply IH. intros b' cmd' Hin. apply (Hall b' cmd'). set_solver.
  - simpl. destruct (Z.eqb_spec n m) as [->|_]; [done|].
    apply IH. intros b' cmd' Hin. apply (Hall b' cmd'). set_solver.
Qed.

(** X15.  An action whose binding is left [None] is off: a click with an
    integer button that no binding holds runs no command, whichever
    bindings are unset, and only prevents the refresh. *)
Theorem on_click_unbound (py3 : Py3) (self : Py3status)
        (event : dict pyval) (n : Z) :
  dict_get "button" event = Some (PyInt n) ->
  (forall b cmd, (b, cmd) ∈ bindings self ->
                 b = PyNone \/ exists m, b = PyInt m /\ m <> n) ->
  on_click py3 self event = (Ok tt, [PreventRefresh]).
Proof.
  intros Hb Hall. rewrite on_click_unfold, Hb.
  by rewrite first_match_unbound.
Qed.

Lemma on_click_unbound_witness :
  on_click no_cmus_host default_self [("button", PyInt 4)]
  = (Ok tt, [PreventRefresh]).
Proof.
  apply (on_click_unbound _ _ _ 4); [reflexivity|].
  intros b cmd Hin. apply list_elem_of_In in Hin. simpl in Hin.
  repeat (destruct Hin as [[= <- <-]|Hin];
          [(by left) || (right; eexists; split; [reflexivity|lia])|]).
  done.
Defined.

(** ** Times in the render request *)

Lemma manipulate_data_time py3 self data out key value :
  NoDup (dict_keys data) ->
  outcome (_manipulate_data py3 self data) = Ok out ->
  dict_get key data = Some value ->
  is_time_key key ->
  dict_get (key +:+ "time") data = None ->
  dict_get key out = Some (PyStr value)
  /\ exists n t, int_of_str value = Some n
                 /\ _seconds_to_time (PyInt n) = ret t
                 /\ dict_get (key +:+ "time") out = Some (PyStr t).
Proof.
  intros Hnd (t0 & Hloop & _ & Hother)%manipulate_data_lookup Hget Hkey Hnew.
  pose proof (dict_get_Some_elem _ _ _ Hget) as Hin.
  assert (key <> "stream" /\ key <> "follow"
          /\ key +:+ "time" <> "stream" /\ key +:+ "time" <> "follow")
    as (N1 & N2 & N3 & N4) by (by destruct Hkey as [->| ->]).
  split.
  - rewrite Hother by done.
    rewrite (foldM_manipulate_key _ _ _ _ _ Hloop Hnd Hin).
    { by rewrite decide_True. }
    intros key' _ [Hk' ->]. by destruct Hkey as [H|H], Hk' as [->| ->].
  - rewrite Hother by done.
    apply (foldM_manipulate_time _ _ _ _ _ Hkey Hloop Hnd Hin).
    by apply dict_get_None_key in Hnew.
Qed.

(** X16.  The formatted time reaches the renderer: whenever a poll
    renders a text that gives [duration] (or [position]) and has no
    line of its own for [durationtime] ([positiontime]), the request
    binds the time key to its string and the derived key to the
    rendering of its integer value. *)
Theorem poll_binds_time (py3 : Py3) (self : Py3status) (r : response)
        (text key value : string) :
  output_of py3 query = Ok text ->
  outcome (cmus py3 self) = Ok r ->
  is_time_key key ->
  dict_get key (_organize_data text) = Some value ->
  dict_get (key +:+ "time") (_organize_data text) = None ->
  exists params n t,
    last (trace (cmus py3 self)) = Some (SafeFormat (format self) params)
    /\ int_of_str value = Some n
    /\ _seconds_to_time (PyInt n) = ret t
    /\ dict_get key params = Some (PyStr value)
    /\ dict_get (key +:+ "time") params = Some (PyStr t).
Proof.
  intros Hq (l & d & Hl & Hd & Hfresh & -> & Ht)%cmus_returns Hkey Hget Hnew.
  revert Hl Hd. rewrite cmus_locals_unfold, Hq.
  destruct (_manipulate_data py3 self (_organize_data text))
    as [[d'|e] t] eqn:Hm; [|done].
  intros [= <-] Hd.
  destruct (started_locals_cases py3 self d') as (_ & _ & Hd' & _).
  rewrite Hd' in Hd. injection Hd as ->.
  destruct (manipulate_data_time py3 self (_organize_data text) d key value)
    as (Hk & n & tm & Hn & Htm & Hkt); try done.
  { apply organize_data_NoDup. }
  { by rewrite Hm. }
  eexists _, n, tm. split; [by rewrite Ht, last_app|].
  split; [done|]. split; [done|].
  assert (forall k, is_Some (dict_get k d) ->
            dict_get k (control_placeholders (is_paused (started_locals py3 self d))
                          (is_playing (started_locals py3 self d))
                          (is_started (started_locals py3 self d))
                          (is_stopped (started_locals py3 self d)) ++ d)
            = dict_get k d) as Happ.
  { intros k [v Hv]. apply dict_get_app.
    unfold control_placeholders. cbn [dict_get].
    repeat match goal with
           | |- context [String.eqb k ?k'] =>
               destruct (String.eqb_spec k k') as [->|_];
               [rewrite Hfresh in Hv; [done|];
                apply list_elem_of_In; simpl; tauto|]
           end.
    done. }
  rewrite !Happ by (by eexists). done.
Qed.

Lemma poll_binds_time_witness :
  let text := "status playing" +:+ nl +:+ "duration 171" +:+ nl in
  let host := sample_host (Ok text) (Raise CommandError) in
  let r := {| cached_until := 1005; color := PyStr "#0000FF";
              full_text := format defaults |} in
  outcome (cmus host default_self) = Ok r
  /\ exists params,
      last (trace (cmus host default_self))
      = Some (SafeFormat (format defaults) params)
      /\ dict_get "durationtime" params = Some (PyStr "02:51").
Proof.
  intros text host r. split; [reflexivity|].
  destruct (poll_binds_time host default_self r text "duration" "171")
    as (params & n & t & Hlast & Hn & Ht & _ & Hkt);
    [reflexivity | reflexivity | by left | reflexivity | reflexivity |].
  exists params. split; [exact Hlast|].
  injection Hn as <-. injection Ht as <-. exact Hkt.
Defined.

(** ** The follow flag and longer templates *)

Lemma string_app_assoc (a b c : string) :
  (a +:+ b) +:+ c = a +:+ (b +:+ c).
Proof.
  induction a as [|x a IH]; [done|].
  change (String x ((a +:+ b) +:+ c) = String x (a +:+ (b +:+ c))).
  by rewrite IH.
Qed.

Lemma contains_app p a s b :
  contains p s = true -> contains p (a +:+ s +:+ b) = true.
Proof.
  rewrite !contains_spec. intros (x & y & ->).
  exists (a +:+ x), (y +:+ b). by rewrite !string_app_assoc.
Qed.

(** X17.  Text put before or after a template never switches the follow
    query off: if the hook sets the flag for a template, it sets it for
    every template that contains it. *)
Theorem use_follow_extends (py3 : Py3) (c c' : Config) (self self' : Py3status)
        (before after : string) :
  outcome (post_config_hook py3 c) = Ok self ->
  outcome (post_config_hook py3 c') = Ok self' ->
  format c' = before +:+ format c +:+ after ->
  use_follow self = true ->
  use_follow self' = true.
Proof.
  intros Hhook Hhook' Hfmt.
  rewrite (use_follow_scan _ _ _ Hhook), (use_follow_scan _ _ _ Hhook'), Hfmt.
  rewrite !orb_true_iff.
  intros [[H|H]|H]; [left; left|left; right|right]; by apply contains_app.
Qed.

Lemma use_follow_extends_witness :
  let host := sample_host (Raise CommandError) (Raise CommandError) in
  let longer := {|
    button_next := PyNone; button_pause := PyInt 1;
    button_previous := PyNone; button_repeat := PyNone;
    button_seek_backward := PyNone; button_seek_forward := PyNone;
    button_shuffle := PyNone; button_stop := PyInt 3;
    button_volume_down := PyNone; button_volume_up := PyNone;
    cache_timeout := 5;
    format := format defaults +:+ format follow_config +:+ "[\?if=repeat R]";
    sleep_timeout := 20 |} in
  exists self',
    outcome (post_config_hook host longer) = Ok self'
    /\ use_follow self' = true.
Proof.
  intros host longer. eexists. split; [reflexivity|].
  apply (use_follow_extends host follow_config longer follow_self _
           (format defaults) "[\?if=repeat R]");
    [reflexivity | reflexivity | reflexivity | reflexivity].
Defined.
